(** * Authentication and session core of the music library service

    A shallow embedding of [musicproject1.py]: the credential store, the
    password hasher, the session-token issuer and verifier, the session
    resolver, and the register / login / song list / song upload / song edit
    / song delete handlers, followed by the properties of them that the
    specification states and by further properties read off the code.

    Conventions.
    - A handler is a computation in the monad [M]: it reads and writes a
      [world] (database tables, files under [static/], the wall clock) and
      either returns a value or raises a Python exception.
    - The two cryptographic libraries are modelled symbolically: a bcrypt
      digest is the term [Bcrypt salt secret], a compact JWS is the term
      [Jws alg payload signature].  A string that is not such an object is
      kept as an opaque string.  The library entry points used by the
      program ([CryptContext.verify], [jwt.encode], [jwt.decode]) are
      functions over these terms. *)

From stdpp Require Import base strings gmap list.
From Stdlib Require Import ZArith Lia.

Local Open Scope string_scope.
Local Open Scope Z_scope.

(** ** Module-level constants (lines 22-24) and [fastapi.status] *)

Definition SECRET_KEY : string := "secret_key_example".
Definition ALGORITHM : string := "HS256".
Definition ACCESS_TOKEN_EXPIRE_MINUTES : Z := 30.

Definition HTTP_303_SEE_OTHER : Z := 303.
Definition HTTP_400_BAD_REQUEST : Z := 400.
Definition HTTP_401_UNAUTHORIZED : Z := 401.
Definition HTTP_403_FORBIDDEN : Z := 403.
Definition HTTP_404_NOT_FOUND : Z := 404.

(** ** Time

    A [datetime] is a number of microseconds since the epoch (the
    resolution of [datetime.utcnow()]), a [timedelta] a number of
    microseconds. *)

Definition datetime := Z.
Definition timedelta := Z.

Definition timedelta_minutes (m : Z) : timedelta := m * 60 * 1000000.

(** [timegm(d.utctimetuple())]: whole seconds, the microseconds dropped. *)
Definition timegm (d : datetime) : Z := d `div` 1000000.

(** Truthiness of an [Optional[timedelta]]: [None] and [timedelta(0)] are
    false. *)
Definition timedelta_truthy (d : option timedelta) : bool :=
  match d with
  | None => false
  | Some x => negb (x =? 0)
  end.

(** Truthiness of a [str]. *)
Definition str_truthy (s : string) : bool :=
  match s with
  | EmptyString => false
  | String _ _ => true
  end.

(** ** Exceptions and results *)

Inductive exn : Type :=
  | HTTPException (status_code : Z) (detail : string)
                  (headers : list (string * string))
  | ValueError (msg : string).

Global Instance exn_eq_dec : EqDecision exn.
Proof. solve_decision. Defined.

Definition exn_status (e : exn) : option Z :=
  match e with
  | HTTPException c _ _ => Some c
  | ValueError _ => None
  end.

Inductive result (A : Type) : Type :=
  | Ok (a : A)
  | Raise (e : exn).
Arguments Ok {A} a.
Arguments Raise {A} e.

(** ** Password hasher (passlib [CryptContext(schemes=["bcrypt"])])

    [Bcrypt salt secret] stands for the bcrypt digest string of [secret]
    under [salt]; [NotAHash raw] for any other stored string.  The digest is
    ideal: it verifies exactly the secret it was made from. *)

Inductive digest : Type :=
  | Bcrypt (salt : string) (secret : string)
  | NotAHash (raw : string).

Global Instance digest_eq_dec : EqDecision digest.
Proof. solve_decision. Defined.

(** [pwd_context.hash]; the random salt is an explicit input. *)
Definition pwd_context_hash (salt : string) (secret : string) : digest :=
  Bcrypt salt secret.

(** [pwd_context.verify]: a string that is not a bcrypt digest makes
    passlib raise [UnknownHashError] (or [MalformedHashError]), both
    subclasses of [ValueError]. *)
Definition pwd_context_verify (secret : string) (hash : digest) : result bool :=
  match hash with
  | Bcrypt _ s => Ok (bool_decide (s = secret))
  | NotAHash _ => Raise (ValueError "hash could not be identified")
  end.

(** Lines 84-88. *)
Definition verify_password (plain_password : string) (hashed_password : digest)
  : result bool :=
  pwd_context_verify plain_password hashed_password.

Definition get_password_hash (salt : string) (password : string) : digest :=
  pwd_context_hash salt password.

(** ** Session tokens (python-jose [jwt])

    [claims] is the dictionary handed to [jwt.encode], restricted to the two
    keys this program writes: ["sub"] and ["exp"] (a [datetime] at that
    point).  [payload] is the JSON object inside a token: ["exp"] is a
    number of seconds there. *)

Record claims : Type := mk_claims {
  sub : option string;
  exp : option datetime
}.

Record payload : Type := mk_payload {
  p_sub : option string;
  p_exp : option Z
}.

Global Instance payload_eq_dec : EqDecision payload.
Proof. solve_decision. Defined.

(** The signature segment: the MAC of header and payload under a key, or
    any other string. *)
Inductive signature : Type :=
  | Mac (key : string) (alg : string) (p : payload)
  | BadSignature (raw : string).

Global Instance signature_eq_dec : EqDecision signature.
Proof. solve_decision. Defined.

(** A cookie value: a compact JWS, or a string that does not parse as one. *)
Inductive token : Type :=
  | Jws (alg : string) (p : payload) (sig : signature)
  | Opaque (raw : string).

Global Instance token_eq_dec : EqDecision token.
Proof. solve_decision. Defined.

(** Truthiness of the cookie string: only the empty string is false. *)
Definition token_truthy (t : token) : bool :=
  match t with
  | Jws _ _ _ => true
  | Opaque raw => str_truthy raw
  end.

(** The subclasses of [JWTError] that [jwt.decode] raises. *)
Inductive JWTError : Type :=
  | JWTError_malformed
  | JWTError_alg_not_allowed
  | JWTError_signature
  | ExpiredSignatureError.

(** [jwt.encode(claims, key, algorithm)]: a [datetime] under ["exp"] is
    replaced by [timegm] of it, then header and payload are signed. *)
Definition jwt_encode (c : claims) (key : string) (algorithm : string) : token :=
  let p := {| p_sub := sub c; p_exp := timegm <$> exp c |} in
  Jws algorithm p (Mac key algorithm p).

(** [_validate_exp] with the default leeway of 0: the token is refused when
    [exp < now], both in whole seconds. *)
Definition validate_exp (now : datetime) (p : payload) : bool :=
  match p_exp p with
  | None => true
  | Some e => negb (e <? timegm now)
  end.

(** [jwt.decode(token, key, algorithms=...)] at clock reading [now]. *)
Definition jwt_decode (now : datetime) (t : token) (key : string)
    (algorithms : list string) : JWTError + payload :=
  match t with
  | Opaque _ => inl JWTError_malformed
  | Jws alg p sig =>
      if negb (bool_decide (alg ∈ algorithms)) then inl JWTError_alg_not_allowed
      else if negb (bool_decide (sig = Mac key alg p)) then inl JWTError_signature
      else if negb (validate_exp now p) then inl ExpiredSignatureError
      else inr p
  end.

(** ** Credential store and song store (lines 31-49)

    A table is the list of its rows in the order in which [.first()] sees
    them. *)

Module UserModel.
Record t : Type := mk {
  id : Z;
  username : string;
  email : option string;
  full_name : option string;
  hashed_password : digest;
  disabled : bool
}.
End UserModel.

Module SongModel.
Record t : Type := mk {
  id : Z;
  name : string;
  artist : string;
  file_path : string;
  owner_id : Z
}.
End SongModel.

(** Pydantic models (lines 55-65). *)
Module User.
Record t : Type := mk {
  username : string;
  email : option string;
  full_name : option string;
  disabled : option bool
}.
End User.

Module UserCreate.
Record t : Type := mk {
  username : string;
  password : string;
  email : option string;
  full_name : option string
}.
End UserCreate.

Record Session : Type := mk_Session {
  users : list UserModel.t;
  songs : list SongModel.t
}.

(** What a request can observe and change: the database, the files on disk
    and the clock. *)
Record world : Type := mk_world {
  db : Session;
  files : gset string;
  clock : datetime
}.

(** ** The handler monad *)

Definition M (A : Type) : Type := world → result A * world.

Global Instance M_ret : MRet M := λ A a w, (Ok a, w).

Global Instance M_bind : MBind M := λ A B k m w,
  match m w with
  | (Ok a, w') => k a w'
  | (Raise e, w') => (Raise e, w')
  end.

Definition raise {A : Type} (e : exn) : M A := λ w, (Raise e, w).

Definition lift {A : Type} (r : result A) : M A := λ w, (r, w).

Definition get_db : M Session := λ w, (Ok (db w), w).

Definition put_db (d : Session) : M unit :=
  λ w, (Ok tt, {| db := d; files := files w; clock := clock w |}).

Definition utcnow : M datetime := λ w, (Ok (clock w), w).

Definition path_exists (p : string) : M bool :=
  λ w, (Ok (bool_decide (p ∈ files w)), w).

Definition os_remove (p : string) : M unit :=
  λ w, (Ok tt, {| db := db w; files := files w ∖ {[p]}; clock := clock w |}).

(** ** Token issue (lines 90-95) *)

Definition create_access_token (data : claims) (expires_delta : option timedelta)
  : M token :=
  now ← utcnow;
  let expire :=
    now + (if timedelta_truthy expires_delta
           then default 0 expires_delta
           else timedelta_minutes 15) in
  let to_encode := {| sub := sub data; exp := Some expire |} in
  let encoded_jwt := jwt_encode to_encode SECRET_KEY ALGORITHM in
  mret encoded_jwt.

(** ** Store access (lines 104-126) *)

(** The next primary key of a table with integer row ids. *)
Definition next_id (ids : list Z) : Z := 1 + foldr Z.max 0 ids.

Definition create_user (salt : string) (user : UserCreate.t) : M UserModel.t :=
  let hashed_password := get_password_hash salt (UserCreate.password user) in
  d ← get_db;
  let db_user :=
    {| UserModel.id := next_id (UserModel.id <$> users d);
       UserModel.username := UserCreate.username user;
       UserModel.email := UserCreate.email user;
       UserModel.full_name := UserCreate.full_name user;
       UserModel.hashed_password := hashed_password;
       UserModel.disabled := false |} in
  put_db {| users := users d ++ [db_user]; songs := songs d |};;
  mret db_user.

Definition get_user_by_username (d : Session) (username : string)
  : option UserModel.t :=
  List.find (λ u, bool_decide (UserModel.username u = username)) (users d).

(** [filter_by(email=email).first()]: a [None] argument selects the rows
    whose email is NULL. *)
Definition get_user_by_email (d : Session) (email : option string)
  : option UserModel.t :=
  List.find (λ u, bool_decide (UserModel.email u = email)) (users d).

(** [False] is rendered as [None]. *)
Definition authenticate_user (d : Session) (username password : string)
  : result (option UserModel.t) :=
  match get_user_by_username d username with
  | None => Ok None
  | Some user =>
      match verify_password password (UserModel.hashed_password user) with
      | Raise e => Raise e
      | Ok false => Ok None
      | Ok true => Ok (Some user)
      end
  end.

(** ** Requests and responses *)

Record Request : Type := mk_Request {
  cookies : gmap string token
}.

Record Cookie : Type := mk_Cookie {
  key : string;
  value : token;
  httponly : bool;
  secure : bool
}.

Inductive ctx_value : Type :=
  | CtxRequest (r : Request)
  | CtxUserCreate (u : UserCreate.t)
  | CtxSong (s : SongModel.t).

Inductive Response : Type :=
  | TemplateResponse (name : string) (context : gmap string ctx_value)
  | RedirectResponse (url : string) (status_code : Z) (set_cookies : list Cookie).

Definition set_cookie (r : Response) (k : string) (v : token)
    (http_only is_secure : bool) : Response :=
  match r with
  | RedirectResponse url c cs =>
      RedirectResponse url c
        (cs ++ [{| key := k; value := v; httponly := http_only; secure := is_secure |}])
  | TemplateResponse n ctx => TemplateResponse n ctx
  end.

(** ** Session resolver (lines 128-154) *)

Definition credentials_exception : exn :=
  HTTPException HTTP_401_UNAUTHORIZED "Could not validate credentials"
    [("WWW-Authenticate", "Bearer")].

Definition get_current_user (request : Request) : M UserModel.t :=
  match cookies request !! "access_token" with
  | None => raise credentials_exception
  | Some token =>
      if negb (token_truthy token) then raise credentials_exception
      else
        now ← utcnow;
        username ←
          match jwt_decode now token SECRET_KEY [ALGORITHM] with
          | inr payload =>
              match p_sub payload with
              | None => raise credentials_exception
              | Some username => mret username
              end
          | inl _ => raise credentials_exception
          end;
        d ← get_db;
        match get_user_by_username d username with
        | None => raise credentials_exception
        | Some user => mret user
        end
  end.

Definition get_current_active_user (current_user : UserModel.t) : M UserModel.t :=
  if UserModel.disabled current_user
  then raise (HTTPException 400 "Inactive user" [])
  else mret current_user.

(** [Depends(get_current_active_user)]: the resolver chain that runs before
    every protected handler. *)
Definition current_active_user (request : Request) : M UserModel.t :=
  current_user ← get_current_user request;
  get_current_active_user current_user.

(** ** Registration (lines 165-188) *)

Definition register (request : Request) (username password : string)
    (email full_name : option string) (salt : string) : M Response :=
  d ← get_db;
  match get_user_by_username d username with
  | Some _ =>
      raise (HTTPException HTTP_400_BAD_REQUEST "Username already registered" [])
  | None =>
      match get_user_by_email d email with
      | Some _ =>
          raise (HTTPException HTTP_400_BAD_REQUEST "Email already registered" [])
      | None =>
          let user :=
            {| UserCreate.username := username;
               UserCreate.password := password;
               UserCreate.email := email;
               UserCreate.full_name := full_name |} in
          create_user salt user;;
          mret (TemplateResponse "login_form.html"
                  (<["user" := CtxUserCreate user]>
                     {["request" := CtxRequest request]}))
      end
  end.

(** ** Login (lines 194-212) *)

Record OAuth2PasswordRequestForm : Type := mk_form {
  form_username : string;
  form_password : string
}.

Definition login_for_access_token (form_data : OAuth2PasswordRequestForm)
  : M Response :=
  d ← get_db;
  user ← lift (authenticate_user d (form_username form_data)
                 (form_password form_data));
  match user with
  | None =>
      raise (HTTPException HTTP_401_UNAUTHORIZED "Incorrect username or password"
               [("WWW-Authenticate", "Bearer")])
  | Some user =>
      let access_token_expires := timedelta_minutes ACCESS_TOKEN_EXPIRE_MINUTES in
      access_token ←
        create_access_token
          {| sub := Some (UserModel.username user); exp := None |}
          (Some access_token_expires);
      let response := RedirectResponse "/songs" HTTP_303_SEE_OTHER [] in
      mret (set_cookie response "access_token" access_token true true)
  end.

(** ** [/users/me] (lines 214-216): the row filtered through
    [response_model=User]. *)

Definition to_User (u : UserModel.t) : User.t :=
  {| User.username := UserModel.username u;
     User.email := UserModel.email u;
     User.full_name := UserModel.full_name u;
     User.disabled := Some (UserModel.disabled u) |}.

Definition read_users_me (current_user : UserModel.t) : M User.t :=
  mret (to_User current_user).

(** ** Song edit and delete (lines 263-311) *)

(** [db.query(SongModel).filter(name == ..., artist == ...).first()] *)
Definition first_song (d : Session) (name artist : string) : option SongModel.t :=
  List.find
    (λ s, bool_decide (SongModel.name s = name)
          && bool_decide (SongModel.artist s = artist))
    (songs d).

(** Flushing a changed row: the row with that primary key is replaced. *)
Definition update_song (song : SongModel.t) (d : Session) : Session :=
  {| users := users d;
     songs := (λ s, if bool_decide (SongModel.id s = SongModel.id song)
                    then song else s) <$> songs d |}.

(** [db.delete(song)]: the row with that primary key is removed. *)
Definition remove_song (song : SongModel.t) (d : Session) : Session :=
  {| users := users d;
     songs := List.filter
                (λ s, negb (bool_decide (SongModel.id s = SongModel.id song)))
                (songs d) |}.

Definition set_name (s : SongModel.t) (n : string) : SongModel.t :=
  {| SongModel.id := SongModel.id s; SongModel.name := n;
     SongModel.artist := SongModel.artist s;
     SongModel.file_path := SongModel.file_path s;
     SongModel.owner_id := SongModel.owner_id s |}.

Definition set_artist (s : SongModel.t) (a : string) : SongModel.t :=
  {| SongModel.id := SongModel.id s; SongModel.name := SongModel.name s;
     SongModel.artist := a;
     SongModel.file_path := SongModel.file_path s;
     SongModel.owner_id := SongModel.owner_id s |}.

Definition edit_song (request : Request) (name artist new_name new_artist : string)
    (current_user : UserModel.t) : M Response :=
  d ← get_db;
  match first_song d name artist with
  | None =>
      raise (HTTPException HTTP_404_NOT_FOUND
               "Song not found or you do not have permission to edit it" [])
  | Some song =>
      let song := if str_truthy name then set_name song new_name else song in
      let song := if str_truthy artist then set_artist song new_artist else song in
      put_db (update_song song d);;
      mret (TemplateResponse "song_edited.html"
              (<["song" := CtxSong song]> {["request" := CtxRequest request]}))
  end.

Definition delete_song (request : Request) (name artist : string)
    (current_user : UserModel.t) : M Response :=
  d ← get_db;
  match first_song d name artist with
  | None =>
      raise (HTTPException HTTP_404_NOT_FOUND
               "Song not found or you dont have permission to delete it" [])
  | Some song =>
      present ← path_exists (SongModel.file_path song);
      (if (present : bool) then os_remove (SongModel.file_path song)
       else mret tt);;
      put_db (remove_song song d);;
      mret (TemplateResponse "song_deleted.html"
              {["request" := CtxRequest request]})
  end.

(** The two routes with their dependency resolved from the request. *)
Definition route_edit_song (request : Request)
    (name artist new_name new_artist : string) : M Response :=
  current_user ← current_active_user request;
  edit_song request name artist new_name new_artist current_user.

Definition route_delete_song (request : Request) (name artist : string)
  : M Response :=
  current_user ← current_active_user request;
  delete_song request name artist current_user.

(** ** Song list and song upload (lines 218-220 and 233-260) *)

(** [current_user.songs]: the relationship of lines 39 and 48-49, loaded
    from the table when the handler reads it. *)
Definition songs_of (d : Session) (u : UserModel.t) : list SongModel.t :=
  List.filter (λ s, bool_decide (SongModel.owner_id s = UserModel.id u)) (songs d).

(** Context values of the song list page. *)
Inductive page_value : Type :=
  | PageRequest (r : Request)
  | PageSongs (l : list SongModel.t)
  | PageUser (u : UserModel.t).

Record Page : Type := mk_Page {
  template : string;
  page_context : gmap string page_value
}.

Definition get_user_songs (request : Request) (current_user : UserModel.t)
  : M Page :=
  d ← get_db;
  mret {| template := "index.html";
          page_context :=
            <["user" := PageUser current_user]>
              (<["songs" := PageSongs (songs_of d current_user)]>
                 {["request" := PageRequest request]}) |}.

(** [open(file_path, "wb")] followed by the write: the path exists
    afterwards.  Only the existence of files is tracked. *)
Definition write_file (p : string) : M unit :=
  λ w, (Ok tt, {| db := db w; files := {[p]} ∪ files w; clock := clock w |}).

Definition add_song (request : Request) (name artist : string)
    (filename : string) (current_user : UserModel.t) : M Response :=
  let file_path := "static/" +:+ filename in
  write_file file_path;;
  d ← get_db;
  let new_song :=
    {| SongModel.id := next_id (SongModel.id <$> songs d);
       SongModel.name := name;
       SongModel.artist := artist;
       SongModel.file_path := file_path;
       SongModel.owner_id := UserModel.id current_user |} in
  put_db {| users := users d; songs := songs d ++ [new_song] |};;
  mret (TemplateResponse "song_added.html"
          (<["new_song" := CtxSong new_song]> {["request" := CtxRequest request]})).

Definition route_get_user_songs (request : Request) : M Page :=
  current_user ← current_active_user request;
  get_user_songs request current_user.

Definition route_add_song (request : Request) (name artist filename : string)
  : M Response :=
  current_user ← current_active_user request;
  add_song request name artist filename current_user.

(** ** Sample data used by the closed examples *)

Definition alice : UserModel.t :=
  {| UserModel.id := 1; UserModel.username := "alice";
     UserModel.email := None; UserModel.full_name := None;
     UserModel.hashed_password := Bcrypt "salt-a" "wonderland";
     UserModel.disabled := false |}.

Definition bob : UserModel.t :=
  {| UserModel.id := 2; UserModel.username := "bob";
     UserModel.email := Some "bob@example.org"; UserModel.full_name := None;
     UserModel.hashed_password := Bcrypt "salt-b" "builder";
     UserModel.disabled := true |}.

Definition carol : UserModel.t :=
  {| UserModel.id := 3; UserModel.username := "carol";
     UserModel.email := Some "carol@example.org"; UserModel.full_name := None;
     UserModel.hashed_password := NotAHash "not-a-bcrypt-string";
     UserModel.disabled := false |}.

Definition alice_song : SongModel.t :=
  {| SongModel.id := 1; SongModel.name := "Blue in Green";
     SongModel.artist := "Miles Davis";
     SongModel.file_path := "static/blue.mp3"; SongModel.owner_id := 1 |}.

Definition sample_db : Session :=
  {| users := [alice; bob; carol]; songs := [alice_song] |}.

Definition sample_world (now : datetime) : world :=
  {| db := sample_db; files := {["static/blue.mp3"]}; clock := now |}.

Definition request_with (t : token) : Request :=
  {| cookies := {["access_token" := t]} |}.

Definition request_without_cookie : Request := {| cookies := ∅ |}.

(** The token the server issues for [username] at clock reading [now]. *)
Definition issued_token (username : string) (now : datetime) : token :=
  jwt_encode {| sub := Some username;
                exp := Some (now + timedelta_minutes ACCESS_TOKEN_EXPIRE_MINUTES) |}
    SECRET_KEY ALGORITHM.

(** * Properties *)

(** ** Unfolding the monad *)

Ltac run :=
  unfold mbind, M_bind, mret, M_ret, raise, lift, get_db, put_db, utcnow,
    path_exists, os_remove in *;
  cbn beta iota in *.

Lemma jwt_decode_inr now t key algs p :
  jwt_decode now t key algs = inr p →
  ∃ alg, t = Jws alg p (Mac key alg p) ∧ alg ∈ algs ∧ validate_exp now p = true.
Proof.
  destruct t as [alg q sig | raw]; cbn; [| discriminate].
  case_bool_decide as Halg; cbn; [| discriminate].
  case_bool_decide as Hsig; cbn; [| discriminate].
  destruct (validate_exp now q) eqn:Hexp; cbn; [| discriminate].
  intros [= <-]. exists alg. by subst.
Qed.

Lemma jwt_decode_issued now T username :
  timegm T ≤ timegm (now + timedelta_minutes ACCESS_TOKEN_EXPIRE_MINUTES) →
  jwt_decode T (issued_token username now) SECRET_KEY [ALGORITHM]
  = inr {| p_sub := Some username;
           p_exp := Some (timegm (now + timedelta_minutes ACCESS_TOKEN_EXPIRE_MINUTES)) |}.
Proof.
  intros HT. unfold issued_token, jwt_encode, jwt_decode. cbn [sub exp fmap option_fmap option_map].
  rewrite bool_decide_true by set_solver. cbn [negb].
  rewrite bool_decide_true by reflexivity. cbn [negb].
  unfold validate_exp. cbn [p_exp].
  destruct (Z.ltb_spec (timegm (now + timedelta_minutes ACCESS_TOKEN_EXPIRE_MINUTES))
              (timegm T)); [lia | reflexivity].
Qed.

(** Every failure of the resolver is the one credentials exception, and the
    resolver never changes the world. *)
Lemma get_current_user_raises request w e w' :
  get_current_user request w = (Raise e, w') →
  e = credentials_exception ∧ w' = w.
Proof.
  unfold get_current_user.
  destruct (cookies request !! "access_token") as [t |]; run;
    [| by intros [= <- <-]].
  destruct (token_truthy t); cbn; [| by intros [= <- <-]].
  destruct (jwt_decode (clock w) t SECRET_KEY [ALGORITHM]) as [err | p];
    [by intros [= <- <-] |].
  destruct (p_sub p) as [username |]; [| by intros [= <- <-]].
  destruct (get_user_by_username (db w) username); [discriminate |].
  by intros [= <- <-].
Qed.

Lemma get_current_user_ok request w t p username user :
  cookies request !! "access_token" = Some t →
  jwt_decode (clock w) t SECRET_KEY [ALGORITHM] = inr p →
  p_sub p = Some username →
  get_user_by_username (db w) username = Some user →
  get_current_user request w = (Ok user, w).
Proof.
  intros Hc Hd Hs Hu. unfold get_current_user. rewrite Hc.
  apply jwt_decode_inr in Hd as Hd'. destruct Hd' as (alg & -> & _ & _).
  cbn [token_truthy negb]. run. rewrite Hd, Hs, Hu. reflexivity.
Qed.

(** ** Session resolver *)

(** C2. On a protected request the resolver raises the credentials
    exception (401) when the [access_token] cookie is absent or empty, when
    the token is malformed, when its signature does not match (tampered),
    when it is expired, when it carries no subject, and when its subject
    names no stored user.  All these causes give the same exception value
    and leave the world untouched; moreover the resolver raises nothing
    else. *)
Theorem get_current_user_unauthorized (request : Request) (w : world) :
  (cookies request !! "access_token" = None
   ∨ (∃ raw, cookies request !! "access_token" = Some (Opaque raw))
   ∨ (∃ alg p sig, cookies request !! "access_token" = Some (Jws alg p sig)
        ∧ sig ≠ Mac SECRET_KEY alg p)
   ∨ (∃ alg p sig e, cookies request !! "access_token" = Some (Jws alg p sig)
        ∧ p_exp p = Some e ∧ e < timegm (clock w))
   ∨ (∃ t p, cookies request !! "access_token" = Some t
        ∧ jwt_decode (clock w) t SECRET_KEY [ALGORITHM] = inr p
        ∧ p_sub p = None)
   ∨ (∃ t p username, cookies request !! "access_token" = Some t
        ∧ jwt_decode (clock w) t SECRET_KEY [ALGORITHM] = inr p
        ∧ p_sub p = Some username
        ∧ get_user_by_username (db w) username = None)) →
  get_current_user request w = (Raise credentials_exception, w)
  ∧ exn_status credentials_exception = Some HTTP_401_UNAUTHORIZED
  ∧ ∀ e w', get_current_user request w = (Raise e, w') →
            e = credentials_exception.
Proof.
  intros Hcause.
  split; [| split; [reflexivity | intros e w' H; by apply get_current_user_raises in H as [-> _]]].
  unfold get_current_user.
  destruct Hcause as
    [Habsent | [(raw & Hraw) | [(alg & p & sig & Hc & Hsig)
      | [(alg & p & sig & e & Hc & He & Hlt)
      | [(t & p & Hc & Hd & Hs) | (t & p & username & Hc & Hd & Hs & Hu)]]]]].
  - by rewrite Habsent.
  - rewrite Hraw. cbn [token_truthy]. destruct (str_truthy raw); run; reflexivity.
  - rewrite Hc. run. cbn [token_truthy negb jwt_decode].
    case_bool_decide; cbn [negb]; [| reflexivity].
    rewrite bool_decide_false by done. reflexivity.
  - rewrite Hc. run. cbn [token_truthy negb jwt_decode].
    case_bool_decide; cbn [negb]; [| reflexivity].
    case_bool_decide; cbn [negb]; [| reflexivity].
    unfold validate_exp. rewrite He.
    destruct (Z.ltb_spec e (timegm (clock w))); [reflexivity | lia].
  - rewrite Hc. apply jwt_decode_inr in Hd as Hd'.
    destruct Hd' as (alg & -> & _ & _). run. cbn [token_truthy negb].
    rewrite Hd, Hs. reflexivity.
  - rewrite Hc. apply jwt_decode_inr in Hd as Hd'.
    destruct Hd' as (alg & -> & _ & _). run. cbn [token_truthy negb].
    rewrite Hd, Hs, Hu. reflexivity.
Qed.

Lemma get_current_user_unauthorized_witness :
  get_current_user request_without_cookie (sample_world 0)
  = (Raise credentials_exception, sample_world 0)
  ∧ exn_status credentials_exception = Some HTTP_401_UNAUTHORIZED
  ∧ ∀ e w', get_current_user request_without_cookie (sample_world 0) = (Raise e, w') →
            e = credentials_exception.
Proof.
  apply (get_current_user_unauthorized request_without_cookie (sample_world 0)).
  left. reflexivity.
Defined.

(** C1 as stated fails: for the disabled account [bob] holding a freshly
    issued token, the failure that is raised does not have status 403
    (Forbidden). *)
Lemma disabled_user_not_forbidden :
  ¬ ∃ e w', current_active_user (request_with (issued_token "bob" 0)) (sample_world 0)
            = (Raise e, w')
          ∧ exn_status e = Some HTTP_403_FORBIDDEN.
Proof.
  intros (e & w' & Hrun & Hst). vm_compute in Hrun.
  injection Hrun as <- _. discriminate Hst.
Qed.

(** C1, amended. When the token verifies and its subject resolves to a
    stored user whose disabled flag is set, the resolver chain raises
    [HTTPException(400, "Inactive user")]: a Bad Request failure, which
    differs from the 401 credentials exception in status, detail and
    headers.  The world is unchanged. *)
Theorem disabled_user_bad_request (request : Request) (w : world) (t : token)
    (p : payload) (username : string) (user : UserModel.t) :
  cookies request !! "access_token" = Some t →
  jwt_decode (clock w) t SECRET_KEY [ALGORITHM] = inr p →
  p_sub p = Some username →
  get_user_by_username (db w) username = Some user →
  UserModel.disabled user = true →
  current_active_user request w = (Raise (HTTPException 400 "Inactive user" []), w)
  ∧ HTTPException 400 "Inactive user" [] ≠ credentials_exception
  ∧ exn_status (HTTPException 400 "Inactive user" []) = Some HTTP_400_BAD_REQUEST
  ∧ exn_status (HTTPException 400 "Inactive user" []) ≠ Some HTTP_401_UNAUTHORIZED.
Proof.
  intros Hc Hd Hs Hu Hdis.
  split; [| by repeat split].
  unfold current_active_user. run.
  rewrite (get_current_user_ok _ _ _ _ _ _ Hc Hd Hs Hu).
  unfold get_current_active_user. rewrite Hdis. reflexivity.
Qed.

Lemma disabled_user_bad_request_witness :
  current_active_user (request_with (issued_token "bob" 0)) (sample_world 0)
  = (Raise (HTTPException 400 "Inactive user" []), sample_world 0)
  ∧ HTTPException 400 "Inactive user" [] ≠ credentials_exception
  ∧ exn_status (HTTPException 400 "Inactive user" []) = Some HTTP_400_BAD_REQUEST
  ∧ exn_status (HTTPException 400 "Inactive user" []) ≠ Some HTTP_401_UNAUTHORIZED.
Proof.
  apply (disabled_user_bad_request (request_with (issued_token "bob" 0))
           (sample_world 0) (issued_token "bob" 0)
           {| p_sub := Some "bob"; p_exp := Some 1800 |} "bob" bob);
    reflexivity.
Defined.

(** ** Login *)

Lemma get_user_by_username_name d username user :
  get_user_by_username d username = Some user →
  UserModel.username user = username ∧ user ∈ users d.
Proof.
  unfold get_user_by_username. intros H.
  apply find_some in H as [Hin Heq].
  apply bool_decide_eq_true in Heq. split; [done | by apply list_elem_of_In].
Qed.

(** C3. A login attempt fails in the same way whether the username is
    unknown or the password does not verify against the stored hash: the
    same [HTTPException] (status 401, one generic detail, the same headers)
    is raised and the world is unchanged. *)
Theorem login_failure_generic (form_data : OAuth2PasswordRequestForm) (w : world) :
  (get_user_by_username (db w) (form_username form_data) = None
   ∨ ∃ user, get_user_by_username (db w) (form_username form_data) = Some user
             ∧ verify_password (form_password form_data)
                 (UserModel.hashed_password user) = Ok false) →
  login_for_access_token form_data w
  = (Raise (HTTPException HTTP_401_UNAUTHORIZED "Incorrect username or password"
              [("WWW-Authenticate", "Bearer")]), w).
Proof.
  intros Hfail. unfold login_for_access_token, authenticate_user. run.
  destruct Hfail as [Hnone | (user & Hsome & Hver)].
  - rewrite Hnone. reflexivity.
  - rewrite Hsome, Hver. reflexivity.
Qed.

Lemma login_failure_generic_witness :
  (∃ user, get_user_by_username (db (sample_world 0)) "alice" = Some user
           ∧ verify_password "guess" (UserModel.hashed_password user) = Ok false)
  ∧ login_for_access_token {| form_username := "alice"; form_password := "guess" |}
      (sample_world 0)
    = (Raise (HTTPException HTTP_401_UNAUTHORIZED "Incorrect username or password"
                [("WWW-Authenticate", "Bearer")]), sample_world 0).
Proof.
  split.
  - exists alice. split; reflexivity.
  - apply (login_failure_generic
             {| form_username := "alice"; form_password := "guess" |} (sample_world 0)).
    right. exists alice. split; reflexivity.
Defined.

(** C8. A successful login answers with a redirect that sets exactly one
    cookie, [access_token], marked HTTP-only and secure, whose value is the
    token signed with the server key over the user's username and the expiry
    [now + 30 minutes]; decoding it at the time of issue gives back that
    username and that expiry in whole seconds. *)
Theorem login_success_cookie (form_data : OAuth2PasswordRequestForm) (w : world)
    (user : UserModel.t) :
  authenticate_user (db w) (form_username form_data) (form_password form_data)
  = Ok (Some user) →
  let access_token :=
    jwt_encode {| sub := Some (UserModel.username user);
                  exp := Some (clock w + timedelta_minutes 30) |}
      SECRET_KEY ALGORITHM in
  login_for_access_token form_data w
  = (Ok (RedirectResponse "/songs" HTTP_303_SEE_OTHER
           [{| key := "access_token"; value := access_token;
               httponly := true; secure := true |}]), w)
  ∧ UserModel.username user = form_username form_data
  ∧ jwt_decode (clock w) access_token SECRET_KEY [ALGORITHM]
    = inr {| p_sub := Some (UserModel.username user);
             p_exp := Some (timegm (clock w + timedelta_minutes 30)) |}.
Proof.
  intros Hauth access_token. split; [| split].
  - unfold login_for_access_token. run. rewrite Hauth.
    unfold create_access_token. run. reflexivity.
  - unfold authenticate_user in Hauth.
    destruct (get_user_by_username (db w) (form_username form_data)) as [u |] eqn:Hu;
      [| discriminate].
    destruct (verify_password _ _) as [[] |]; try discriminate.
    injection Hauth as ->. by apply get_user_by_username_name in Hu as [? _].
  - apply (jwt_decode_issued (clock w) (clock w)).
    unfold timegm, timedelta_minutes, ACCESS_TOKEN_EXPIRE_MINUTES.
    apply Z.div_le_mono; lia.
Qed.

Lemma login_success_cookie_witness :
  authenticate_user (db (sample_world 0)) "alice" "wonderland" = Ok (Some alice)
  ∧ login_for_access_token
      {| form_username := "alice"; form_password := "wonderland" |} (sample_world 0)
    = (Ok (RedirectResponse "/songs" HTTP_303_SEE_OTHER
             [{| key := "access_token"; value := issued_token "alice" 0;
                 httponly := true; secure := true |}]), sample_world 0).
Proof.
  split; [reflexivity |].
  apply (login_success_cookie
           {| form_username := "alice"; form_password := "wonderland" |}
           (sample_world 0) alice).
  reflexivity.
Defined.

(** ** Password verification on a stored string that is not a digest *)

(** C6 as stated fails: on a stored string that is not a bcrypt digest,
    [verify_password] does not return false. *)
Lemma verify_password_malformed_not_false :
  verify_password "wonderland" (NotAHash "not-a-bcrypt-string") ≠ Ok false.
Proof. discriminate. Qed.

(** C6, amended. On a stored string that is not a bcrypt digest,
    [verify_password] raises the hasher's [ValueError] for every plaintext;
    it never returns true.  The error is not caught: [authenticate_user]
    and the login handler raise it too, so no user is returned, no token is
    issued and the world is unchanged. *)
Theorem verify_password_malformed_raises (plain_password raw : string)
    (form_data : OAuth2PasswordRequestForm) (w : world) (user : UserModel.t) :
  get_user_by_username (db w) (form_username form_data) = Some user →
  UserModel.hashed_password user = NotAHash raw →
  verify_password plain_password (NotAHash raw)
  = Raise (ValueError "hash could not be identified")
  ∧ verify_password plain_password (NotAHash raw) ≠ Ok true
  ∧ authenticate_user (db w) (form_username form_data) (form_password form_data)
    = Raise (ValueError "hash could not be identified")
  ∧ login_for_access_token form_data w
    = (Raise (ValueError "hash could not be identified"), w).
Proof.
  intros Hu Hh. split; [reflexivity | split; [discriminate |]].
  assert (Hauth : authenticate_user (db w) (form_username form_data)
                    (form_password form_data)
                  = Raise (ValueError "hash could not be identified")).
  { unfold authenticate_user. rewrite Hu, Hh. reflexivity. }
  split; [exact Hauth |].
  unfold login_for_access_token. run. rewrite Hauth. reflexivity.
Qed.

Lemma verify_password_malformed_raises_witness :
  (get_user_by_username (db (sample_world 0)) "carol" = Some carol
   ∧ UserModel.hashed_password carol = NotAHash "not-a-bcrypt-string")
  ∧ login_for_access_token {| form_username := "carol"; form_password := "x" |}
      (sample_world 0)
    = (Raise (ValueError "hash could not be identified"), sample_world 0).
Proof.
  split; [split; reflexivity |].
  apply (verify_password_malformed_raises "x" "not-a-bcrypt-string"
           {| form_username := "carol"; form_password := "x" |}
           (sample_world 0) carol); reflexivity.
Defined.

(** ** Token lifetime *)

(** C5 as stated fails: a token issued at time 0 with a TTL of 30 minutes
    still verifies at exactly 0 + 30 minutes, and the resolver accepts it. *)
Lemma token_valid_at_exact_expiry :
  (create_access_token {| sub := Some "alice"; exp := None |}
     (Some (timedelta_minutes 30)) (sample_world 0)).1
  = Ok (issued_token "alice" 0)
  ∧ jwt_decode (0 + timedelta_minutes 30) (issued_token "alice" 0)
      SECRET_KEY [ALGORITHM]
    ≠ inl ExpiredSignatureError
  ∧ get_current_user (request_with (issued_token "alice" 0))
      (sample_world (0 + timedelta_minutes 30))
    = (Ok alice, sample_world (0 + timedelta_minutes 30)).
Proof. split; [reflexivity | split; [discriminate | reflexivity]]. Qed.

Lemma jwt_decode_encode T c :
  jwt_decode T (jwt_encode c SECRET_KEY ALGORITHM) SECRET_KEY [ALGORITHM]
  = if validate_exp T {| p_sub := sub c; p_exp := timegm <$> exp c |}
    then inr {| p_sub := sub c; p_exp := timegm <$> exp c |}
    else inl ExpiredSignatureError.
Proof.
  unfold jwt_encode, jwt_decode.
  rewrite bool_decide_true by set_solver. cbn [negb].
  rewrite bool_decide_true by reflexivity. cbn [negb].
  by destruct (validate_exp T _).
Qed.

Lemma timegm_mono a b : a ≤ b → timegm a ≤ timegm b.
Proof. intros H. unfold timegm. apply Z.div_le_mono; lia. Qed.

Lemma timegm_next_second a b : a + 1000000 ≤ b → timegm a < timegm b.
Proof.
  intros H. unfold timegm.
  assert (a `div` 1000000 + 1 ≤ b `div` 1000000); [| lia].
  replace (a `div` 1000000 + 1) with ((a + 1 * 1000000) `div` 1000000)
    by (rewrite Z.div_add; lia).
  apply Z.div_le_mono; lia.
Qed.

(** C5, amended. A token issued at time [now] with a non-zero TTL [t]
    carries the expiry [now + t] in whole seconds.  Verification at time [T]
    succeeds exactly when the whole second of [T] is not after the whole
    second of [now + t]: it succeeds at every time up to and including
    [now + t], and it fails, as expired, at every time one second or more
    after [now + t]. *)
Theorem token_expiry_whole_seconds (data : claims) (t : timedelta) (w : world)
    (T : datetime) :
  t ≠ 0 →
  let tok := jwt_encode {| sub := sub data; exp := Some (clock w + t) |}
               SECRET_KEY ALGORITHM in
  let p := {| p_sub := sub data; p_exp := Some (timegm (clock w + t)) |} in
  create_access_token data (Some t) w = (Ok tok, w)
  ∧ (jwt_decode T tok SECRET_KEY [ALGORITHM] = inr p
     ↔ timegm T ≤ timegm (clock w + t))
  ∧ (jwt_decode T tok SECRET_KEY [ALGORITHM] = inl ExpiredSignatureError
     ↔ timegm (clock w + t) < timegm T)
  ∧ (T ≤ clock w + t → jwt_decode T tok SECRET_KEY [ALGORITHM] = inr p)
  ∧ (clock w + t + 1000000 ≤ T →
     jwt_decode T tok SECRET_KEY [ALGORITHM] = inl ExpiredSignatureError).
Proof.
  intros Ht tok p.
  assert (Hdec : jwt_decode T tok SECRET_KEY [ALGORITHM]
                 = if timegm (clock w + t) <? timegm T
                   then inl ExpiredSignatureError else inr p).
  { unfold tok. rewrite jwt_decode_encode. unfold validate_exp. cbn.
    by destruct (timegm (clock w + t) <? timegm T). }
  split.
  { unfold create_access_token, timedelta_truthy. run.
    destruct (Z.eqb_spec t 0); [done |]. reflexivity. }
  rewrite Hdec.
  destruct (Z.ltb_spec (timegm (clock w + t)) (timegm T)) as [Hlt | Hle].
  - repeat split; try done; try lia.
    intros HT. apply timegm_mono in HT. lia.
  - repeat split; try done; try lia.
    intros HT. apply timegm_next_second in HT. lia.
Qed.

Lemma token_expiry_whole_seconds_witness :
  timedelta_minutes 30 ≠ 0
  ∧ jwt_decode (timedelta_minutes 30 + 999999) (issued_token "alice" 0)
      SECRET_KEY [ALGORITHM]
    = inr {| p_sub := Some "alice"; p_exp := Some 1800 |}
  ∧ jwt_decode (timedelta_minutes 30 + 1000000) (issued_token "alice" 0)
      SECRET_KEY [ALGORITHM]
    = inl ExpiredSignatureError.
Proof.
  split; [discriminate |].
  split.
  - destruct (token_expiry_whole_seconds {| sub := Some "alice"; exp := None |}
                (timedelta_minutes 30) (sample_world 0)
                (timedelta_minutes 30 + 999999)) as (_ & Hok & _);
      [discriminate |].
    apply Hok. vm_compute. intros Hgt. discriminate Hgt.
  - destruct (token_expiry_whole_seconds {| sub := Some "alice"; exp := None |}
                (timedelta_minutes 30) (sample_world 0)
                (timedelta_minutes 30 + 1000000)) as (_ & _ & Hexpired & _);
      [discriminate |].
    apply Hexpired. vm_compute. reflexivity.
Defined.

(** ** Registration *)

Lemma register_raises request username password email full_name salt w e w' :
  register request username password email full_name salt w = (Raise e, w') →
  w' = w.
Proof.
  unfold register. run.
  destruct (get_user_by_username (db w) username); [by intros [= _ <-] |].
  destruct (get_user_by_email (db w) email); [by intros [= _ <-] |].
  unfold create_user. run. discriminate.
Qed.

Lemma get_user_by_email_is_Some d email u :
  u ∈ users d → UserModel.email u = email → is_Some (get_user_by_email d email).
Proof.
  intros Hin Hmail. destruct (get_user_by_email d email) eqn:Hfind; [by eexists |].
  apply list_elem_of_In in Hin. unfold get_user_by_email in Hfind.
  pose proof (find_none _ _ Hfind u Hin) as Hfalse.
  by apply bool_decide_eq_false in Hfalse.
Qed.

(** C7. Registering a username that is already in the store raises the
    duplicate-username conflict, whatever the email (the username lookup
    comes first), and leaves the world, hence the users table, as it was.
    More generally every registration that raises leaves the world
    unchanged. *)
Theorem register_duplicate_username (request : Request) (username password : string)
    (email full_name : option string) (salt : string) (w : world) :
  is_Some (get_user_by_username (db w) username) →
  register request username password email full_name salt w
  = (Raise (HTTPException HTTP_400_BAD_REQUEST "Username already registered" []), w)
  ∧ ∀ request' username' password' email' full_name' salt' e w',
      register request' username' password' email' full_name' salt' w = (Raise e, w') →
      w' = w ∧ users (db w') = users (db w).
Proof.
  intros [u Hu]. split.
  - unfold register. run. rewrite Hu. reflexivity.
  - intros * Hrun. apply register_raises in Hrun as ->. done.
Qed.

Lemma register_duplicate_username_witness :
  is_Some (get_user_by_username (db (sample_world 0)) "alice")
  ∧ register request_without_cookie "alice" "again" (Some "a2@example.org") None
      "salt-x" (sample_world 0)
    = (Raise (HTTPException HTTP_400_BAD_REQUEST "Username already registered" []),
       sample_world 0).
Proof.
  split; [by eexists |].
  apply (register_duplicate_username request_without_cookie "alice" "again"
           (Some "a2@example.org") None "salt-x" (sample_world 0)).
  by eexists.
Defined.

(** C10 as stated fails: [alice] is stored without an email, and a
    registration that omits the email but reuses her username is refused
    with the duplicate-username conflict, not the duplicate-email one. *)
Lemma register_no_email_username_first :
  (∃ u, u ∈ users (db (sample_world 0)) ∧ UserModel.email u = None)
  ∧ (register request_without_cookie "alice" "again" None None "salt-x"
       (sample_world 0)).1
    ≠ Raise (HTTPException HTTP_400_BAD_REQUEST "Email already registered" []).
Proof.
  split; [exists alice; split; [set_solver | reflexivity] | discriminate].
Qed.

(** C10, amended. A registration that omits the email, with a username not
    yet in the store, is refused with the duplicate-email conflict as soon
    as some stored user has no email either: the email lookup matches the
    rows whose email is NULL.  The world is unchanged. *)
Theorem register_no_email_conflict (request : Request) (username password : string)
    (full_name : option string) (salt : string) (w : world) :
  get_user_by_username (db w) username = None →
  (∃ u, u ∈ users (db w) ∧ UserModel.email u = None) →
  register request username password None full_name salt w
  = (Raise (HTTPException HTTP_400_BAD_REQUEST "Email already registered" []), w).
Proof.
  intros Hfresh (u & Hin & Hmail). unfold register. run. rewrite Hfresh.
  destruct (get_user_by_email_is_Some (db w) None u Hin Hmail) as [v Hv].
  rewrite Hv. reflexivity.
Qed.

Lemma register_no_email_conflict_witness :
  (get_user_by_username (db (sample_world 0)) "dave" = None
   ∧ ∃ u, u ∈ users (db (sample_world 0)) ∧ UserModel.email u = None)
  ∧ register request_without_cookie "dave" "hunter2" None None "salt-d"
      (sample_world 0)
    = (Raise (HTTPException HTTP_400_BAD_REQUEST "Email already registered" []),
       sample_world 0).
Proof.
  split.
  - split; [reflexivity | exists alice; split; [set_solver | reflexivity]].
  - apply (register_no_email_conflict request_without_cookie "dave" "hunter2" None
             "salt-d" (sample_world 0)); [reflexivity |].
    exists alice. split; [set_solver | reflexivity].
Defined.

(** C4 fails on the code.  The response of a successful registration is the
    login form rendered with a context whose ["user"] entry is the
    [UserCreate] object built from the form, plaintext password included.
    (The password hash is only in the stored row, which is not put into the
    context.) *)
Theorem register_context_carries_password :
  ∃ ctx w',
    register request_without_cookie "dave" "hunter2" (Some "dave@example.org")
      None "salt-d" (sample_world 0)
    = (Ok (TemplateResponse "login_form.html" ctx), w')
    ∧ ctx !! "user"
      = Some (CtxUserCreate
                {| UserCreate.username := "dave"; UserCreate.password := "hunter2";
                   UserCreate.email := Some "dave@example.org";
                   UserCreate.full_name := None |})
    ∧ get_user_by_username (db w') "dave"
      = Some {| UserModel.id := 4; UserModel.username := "dave";
                UserModel.email := Some "dave@example.org";
                UserModel.full_name := None;
                UserModel.hashed_password := Bcrypt "salt-d" "hunter2";
                UserModel.disabled := false |}.
Proof.
  destruct (register request_without_cookie "dave" "hunter2"
              (Some "dave@example.org") None "salt-d" (sample_world 0))
    as [r w'] eqn:Hrun.
  vm_compute in Hrun. injection Hrun as <- <-.
  eexists _, _. split; [reflexivity |]. split; reflexivity.
Qed.

(** Every successful registration stores the hashed row and answers with a
    context that holds the submitted form data. *)
Lemma register_ok request username password email full_name salt w :
  get_user_by_username (db w) username = None →
  get_user_by_email (db w) email = None →
  ∃ row, register request username password email full_name salt w
  = (Ok (TemplateResponse "login_form.html"
           (<["user" := CtxUserCreate
                          {| UserCreate.username := username;
                             UserCreate.password := password;
                             UserCreate.email := email;
                             UserCreate.full_name := full_name |}]>
              {["request" := CtxRequest request]})),
     {| db := {| users := users (db w) ++ [row]; songs := songs (db w) |};
        files := files w; clock := clock w |})
  ∧ UserModel.username row = username
  ∧ UserModel.hashed_password row = Bcrypt salt password
  ∧ UserModel.disabled row = false.
Proof.
  intros Hu He. eexists. unfold register. run. rewrite Hu, He.
  unfold create_user. run. repeat split.
Qed.

(** ** Songs *)

(** C9. For every request whose resolver chain yields an active user, the
    edit and delete routes act on the first stored song with the given name
    and artist, whoever owns it: nothing in the outcome depends on the
    resolved user, and no relation between the song's owner and that user is
    required.  The edit replaces that row, the delete removes it together
    with its file. *)
Theorem song_edit_delete_ignore_owner (request : Request) (w : world)
    (user : UserModel.t) (name artist new_name new_artist : string)
    (song : SongModel.t) :
  current_active_user request w = (Ok user, w) →
  List.find (λ s, bool_decide (SongModel.name s = name)
                  && bool_decide (SongModel.artist s = artist)) (songs (db w))
  = Some song →
  let edited :=
    let s := if str_truthy name then set_name song new_name else song in
    if str_truthy artist then set_artist s new_artist else s in
  route_edit_song request name artist new_name new_artist w
  = (Ok (TemplateResponse "song_edited.html"
           (<["song" := CtxSong edited]> {["request" := CtxRequest request]})),
     {| db := update_song edited (db w); files := files w; clock := clock w |})
  ∧ route_delete_song request name artist w
    = (Ok (TemplateResponse "song_deleted.html" {["request" := CtxRequest request]}),
       {| db := remove_song song (db w);
          files := if bool_decide (SongModel.file_path song ∈ files w)
                   then files w ∖ {[SongModel.file_path song]} else files w;
          clock := clock w |})
  ∧ (∀ other : UserModel.t,
       edit_song request name artist new_name new_artist other
       = edit_song request name artist new_name new_artist user
       ∧ delete_song request name artist other
         = delete_song request name artist user).
Proof.
  intros Hauth Hfirst edited. split; [| split].
  - unfold route_edit_song. run. rewrite Hauth.
    unfold edit_song, first_song. run. rewrite Hfirst. reflexivity.
  - unfold route_delete_song. run. rewrite Hauth.
    unfold delete_song, first_song. run. rewrite Hfirst.
    by case_bool_decide.
  - intros other. split; reflexivity.
Qed.

Lemma song_edit_delete_ignore_owner_witness :
  (current_active_user (request_with (issued_token "carol" 0)) (sample_world 0)
   = (Ok carol, sample_world 0)
   ∧ SongModel.owner_id alice_song ≠ UserModel.id carol)
  ∧ route_edit_song (request_with (issued_token "carol" 0))
      "Blue in Green" "Miles Davis" "So What" "Carol" (sample_world 0)
    = (Ok (TemplateResponse "song_edited.html"
             (<["song" := CtxSong (set_artist (set_name alice_song "So What") "Carol")]>
                {["request" := CtxRequest (request_with (issued_token "carol" 0))]})),
       {| db := {| users := [alice; bob; carol];
                   songs := [set_artist (set_name alice_song "So What") "Carol"] |};
          files := {["static/blue.mp3"]}; clock := 0 |})
  ∧ (route_delete_song (request_with (issued_token "carol" 0))
       "Blue in Green" "Miles Davis" (sample_world 0)).2
    = {| db := {| users := [alice; bob; carol]; songs := [] |};
         files := {["static/blue.mp3"]} ∖ {["static/blue.mp3"]}; clock := 0 |}.
Proof.
  split; [split; [reflexivity | discriminate] |].
  destruct (song_edit_delete_ignore_owner (request_with (issued_token "carol" 0))
              (sample_world 0) carol "Blue in Green" "Miles Davis" "So What" "Carol"
              alice_song eq_refl eq_refl) as (Hedit & Hdelete & _).
  split; [rewrite Hedit | rewrite Hdelete]; reflexivity.
Defined.

(** * Further properties of the code *)

Ltac run_io := unfold write_file in *; run.

(** ** Shared facts *)

Lemma find_app_first {A : Type} (f : A → bool) (l k : list A) :
  List.find f (l ++ k)
  = match List.find f l with Some x => Some x | None => List.find f k end.
Proof.
  induction l as [| x l IH]; cbn; [reflexivity |].
  by destruct (f x).
Qed.

Lemma get_user_by_username_None d username :
  get_user_by_username d username = None ↔
  username ∉ UserModel.username <$> users d.
Proof.
  unfold get_user_by_username. split.
  - intros Hnone Hin. apply list_elem_of_fmap in Hin as (u & -> & Hu).
    apply list_elem_of_In in Hu.
    pose proof (find_none _ _ Hnone u Hu) as Hfalse.
    by apply bool_decide_eq_false in Hfalse.
  - intros Hnotin.
    destruct (List.find _ (users d)) as [u |] eqn:Hfind; [| reflexivity].
    apply find_some in Hfind as [Hin Heq]. apply bool_decide_eq_true in Heq.
    exfalso. apply Hnotin. apply list_elem_of_fmap. exists u.
    split; [done | by apply list_elem_of_In].
Qed.

Lemma get_user_by_email_None d e :
  get_user_by_email d (Some e) = None → e ∉ omap UserModel.email (users d).
Proof.
  unfold get_user_by_email. intros Hnone Hin.
  apply list_elem_of_omap in Hin as (u & Hu & Hmail).
  apply list_elem_of_In in Hu.
  pose proof (find_none _ _ Hnone u Hu) as Hfalse.
  by apply bool_decide_eq_false in Hfalse.
Qed.

Lemma authenticate_user_Some d username password user :
  authenticate_user d username password = Ok (Some user) →
  get_user_by_username d username = Some user
  ∧ ∃ salt, UserModel.hashed_password user = Bcrypt salt password.
Proof.
  unfold authenticate_user, verify_password, pwd_context_verify.
  destruct (get_user_by_username d username) as [u |]; [| discriminate].
  destruct (UserModel.hashed_password u) as [salt secret | raw] eqn:Hh;
    [| discriminate].
  case_bool_decide as Hpw; [| discriminate].
  intros [= <-]. split; [reflexivity |]. exists salt. by rewrite Hh, Hpw.
Qed.

Lemma login_run form_data w user :
  authenticate_user (db w) (form_username form_data) (form_password form_data)
  = Ok (Some user) →
  login_for_access_token form_data w
  = (Ok (RedirectResponse "/songs" HTTP_303_SEE_OTHER
           [{| key := "access_token";
               value := issued_token (UserModel.username user) (clock w);
               httponly := true; secure := true |}]), w).
Proof.
  intros Hauth. unfold login_for_access_token. run. rewrite Hauth.
  unfold create_access_token. run. reflexivity.
Qed.

Lemma login_Ok_inv form_data w response w' :
  login_for_access_token form_data w = (Ok response, w') →
  ∃ user, authenticate_user (db w) (form_username form_data)
            (form_password form_data) = Ok (Some user).
Proof.
  unfold login_for_access_token. run.
  destruct (authenticate_user _ _ _) as [[user |] | e]; try discriminate.
  intros _. by exists user.
Qed.

Lemma get_current_user_Ok_inv request w user w' :
  get_current_user request w = (Ok user, w') →
  w' = w
  ∧ ∃ p, cookies request !! "access_token"
         = Some (Jws ALGORITHM p (Mac SECRET_KEY ALGORITHM p))
       ∧ validate_exp (clock w) p = true
       ∧ p_sub p = Some (UserModel.username user)
       ∧ get_user_by_username (db w) (UserModel.username user) = Some user.
Proof.
  unfold get_current_user.
  destruct (cookies request !! "access_token") as [t |]; run; [| discriminate].
  destruct (token_truthy t); cbn; [| discriminate].
  destruct (jwt_decode (clock w) t SECRET_KEY [ALGORITHM]) as [err | p] eqn:Hd;
    [discriminate |].
  destruct (p_sub p) as [username |] eqn:Hs; [| discriminate].
  destruct (get_user_by_username (db w) username) as [u |] eqn:Hu;
    [| discriminate].
  intros [= <- <-]. split; [reflexivity |].
  apply jwt_decode_inr in Hd as (alg & -> & Halg & Hexp).
  apply list_elem_of_singleton in Halg as ->.
  apply get_user_by_username_name in Hu as Hname. destruct Hname as [<- _].
  exists p. by rewrite Hs.
Qed.

Lemma get_current_user_issued w T username user :
  get_user_by_username (db w) username = Some user →
  clock w = T →
  ∀ now,
    get_current_user (request_with (issued_token username now)) w
    = if timegm (now + timedelta_minutes ACCESS_TOKEN_EXPIRE_MINUTES) <? timegm T
      then (Raise credentials_exception, w) else (Ok user, w).
Proof.
  intros Hu <- now. unfold get_current_user, request_with. cbn [cookies].
  rewrite lookup_singleton_eq. unfold issued_token at 1. cbn [jwt_encode token_truthy negb].
  run. fold (issued_token username now).
  unfold issued_token. rewrite jwt_decode_encode. unfold validate_exp. cbn.
  destruct (_ <? _); cbn; [reflexivity |]. by rewrite Hu.
Qed.

(** ** Token issue *)

(** X1. Without a lifetime, or with a lifetime of zero, [create_access_token]
    issues a token that expires 15 minutes after the clock reading; an
    ["exp"] entry already present in [data] is overwritten, and the world is
    not changed. *)
Theorem create_access_token_default_ttl (data : claims)
    (expires_delta : option timedelta) (w : world) :
  expires_delta = None ∨ expires_delta = Some 0 →
  create_access_token data expires_delta w
  = (Ok (jwt_encode {| sub := sub data;
                       exp := Some (clock w + timedelta_minutes 15) |}
           SECRET_KEY ALGORITHM), w).
Proof.
  intros [-> | ->]; unfold create_access_token; run; reflexivity.
Qed.

Lemma create_access_token_default_ttl_witness :
  (Some 0 = None ∨ Some 0 = Some 0)
  ∧ create_access_token {| sub := Some "alice"; exp := Some 7 |} (Some 0)
      (sample_world 0)
    = (Ok (Jws "HS256" {| p_sub := Some "alice"; p_exp := Some 900 |}
             (Mac SECRET_KEY "HS256" {| p_sub := Some "alice"; p_exp := Some 900 |})),
       sample_world 0).
Proof.
  split; [by right |].
  apply (create_access_token_default_ttl {| sub := Some "alice"; exp := Some 7 |}
           (Some 0) (sample_world 0)).
  by right.
Defined.

(** ** Session resolver *)

(** X2. When the resolver returns a user, the cookie held a token with
    algorithm HS256 whose signature is the MAC under the server key of
    exactly the payload it carries, that payload is not expired at the clock
    reading, its subject is the username of the returned user, and the
    returned user is the stored row found under that username.  The world is
    unchanged. *)
Theorem get_current_user_sound (request : Request) (w w' : world)
    (user : UserModel.t) :
  get_current_user request w = (Ok user, w') →
  w' = w
  ∧ ∃ p, cookies request !! "access_token"
         = Some (Jws ALGORITHM p (Mac SECRET_KEY ALGORITHM p))
       ∧ (∀ e, p_exp p = Some e → timegm (clock w) ≤ e)
       ∧ p_sub p = Some (UserModel.username user)
       ∧ get_user_by_username (db w) (UserModel.username user) = Some user
       ∧ user ∈ users (db w).
Proof.
  intros Hrun. apply get_current_user_Ok_inv in Hrun as (-> & p & Hc & Hexp & Hs & Hu).
  split; [reflexivity |]. exists p. repeat split; try done.
  - intros e He. unfold validate_exp in Hexp. rewrite He in Hexp.
    destruct (Z.ltb_spec e (timegm (clock w))); [discriminate | lia].
  - by apply get_user_by_username_name in Hu as [_ ?].
Qed.

Lemma get_current_user_sound_witness :
  get_current_user (request_with (issued_token "alice" 0)) (sample_world 5)
  = (Ok alice, sample_world 5)
  ∧ ∃ p, cookies (request_with (issued_token "alice" 0)) !! "access_token"
         = Some (Jws ALGORITHM p (Mac SECRET_KEY ALGORITHM p))
       ∧ p_sub p = Some "alice".
Proof.
  split; [reflexivity |].
  destruct (get_current_user_sound (request_with (issued_token "alice" 0))
              (sample_world 5) (sample_world 5) alice eq_refl)
    as (_ & p & Hc & _ & Hs & _).
  exists p. split; [exact Hc | exact Hs].
Defined.

(** X3. The resolver chain of the protected routes has three outcomes only:
    it returns a stored user whose disabled flag is not set, or it raises the
    401 credentials exception, or it raises the 400 "Inactive user"
    exception.  In every case the world is unchanged. *)
Theorem current_active_user_outcomes (request : Request) (w : world) :
  (∃ user, current_active_user request w = (Ok user, w)
           ∧ UserModel.disabled user = false
           ∧ user ∈ users (db w))
  ∨ current_active_user request w = (Raise credentials_exception, w)
  ∨ current_active_user request w
    = (Raise (HTTPException 400 "Inactive user" []), w).
Proof.
  unfold current_active_user. run.
  destruct (get_current_user request w) as [[user | e] w'] eqn:Hrun.
  - apply get_current_user_Ok_inv in Hrun as (-> & p & _ & _ & _ & Hu).
    apply get_user_by_username_name in Hu as [_ Hin].
    unfold get_current_active_user.
    destruct (UserModel.disabled user) eqn:Hdis; run.
    + right. right. reflexivity.
    + left. exists user. done.
  - apply get_current_user_raises in Hrun as [-> ->]. right. left. reflexivity.
Qed.

(** ** Login *)

(** X4. A login that answers with a response has found a stored user under
    the submitted username whose stored digest is a bcrypt digest of the
    submitted password; the response is the redirect carrying the token
    issued for that user, and the world is unchanged.  No token is issued
    otherwise. *)
Theorem login_success_sound (form_data : OAuth2PasswordRequestForm) (w w' : world)
    (response : Response) :
  login_for_access_token form_data w = (Ok response, w') →
  w' = w
  ∧ ∃ user salt,
      get_user_by_username (db w) (form_username form_data) = Some user
      ∧ UserModel.hashed_password user = Bcrypt salt (form_password form_data)
      ∧ response
        = RedirectResponse "/songs" HTTP_303_SEE_OTHER
            [{| key := "access_token";
                value := issued_token (form_username form_data) (clock w);
                httponly := true; secure := true |}].
Proof.
  intros Hrun. destruct (login_Ok_inv _ _ _ _ Hrun) as [user Hauth].
  rewrite (login_run _ _ _ Hauth) in Hrun. injection Hrun as <- <-.
  apply authenticate_user_Some in Hauth as (Hu & salt & Hh).
  apply get_user_by_username_name in Hu as Hname. destruct Hname as [Hname _].
  split; [reflexivity |]. exists user, salt. by rewrite Hname.
Qed.

Lemma login_success_sound_witness :
  login_for_access_token {| form_username := "alice"; form_password := "wonderland" |}
    (sample_world 0)
  = (Ok (RedirectResponse "/songs" HTTP_303_SEE_OTHER
           [{| key := "access_token"; value := issued_token "alice" 0;
               httponly := true; secure := true |}]), sample_world 0)
  ∧ ∃ user salt,
      get_user_by_username (db (sample_world 0)) "alice" = Some user
      ∧ UserModel.hashed_password user = Bcrypt salt "wonderland".
Proof.
  split; [reflexivity |].
  destruct (login_success_sound
              {| form_username := "alice"; form_password := "wonderland" |}
              (sample_world 0) (sample_world 0) _ eq_refl)
    as (_ & user & salt & Hu & Hh & _).
  exists user, salt. split; [exact Hu | exact Hh].
Defined.

(** X5. The token delivered by a successful login resolves, on the same
    store, to the user who logged in for as long as the whole second of the
    clock is not after the whole second of issue time plus 30 minutes; after
    that the resolver raises the credentials exception. *)
Theorem login_then_resolve (form_data : OAuth2PasswordRequestForm) (w w1 w2 : world)
    (url : string) (code : Z) (c : Cookie) :
  login_for_access_token form_data w = (Ok (RedirectResponse url code [c]), w1) →
  db w2 = db w →
  ∃ user,
    get_user_by_username (db w) (form_username form_data) = Some user
    ∧ (timegm (clock w2) ≤ timegm (clock w + timedelta_minutes 30) →
       get_current_user (request_with (value c)) w2 = (Ok user, w2))
    ∧ (timegm (clock w + timedelta_minutes 30) < timegm (clock w2) →
       get_current_user (request_with (value c)) w2
       = (Raise credentials_exception, w2)).
Proof.
  intros Hrun Hdb. destruct (login_Ok_inv _ _ _ _ Hrun) as [user Hauth].
  rewrite (login_run _ _ _ Hauth) in Hrun. injection Hrun as _ _ <- _.
  apply authenticate_user_Some in Hauth as (Hu & _).
  apply get_user_by_username_name in Hu as Hname. destruct Hname as [Hname _].
  exists user. split; [exact Hu |]. cbn [value]. rewrite Hname.
  rewrite <- Hdb in Hu.
  rewrite (get_current_user_issued w2 (clock w2) _ user Hu eq_refl (clock w)).
  unfold ACCESS_TOKEN_EXPIRE_MINUTES.
  destruct (Z.ltb_spec (timegm (clock w + timedelta_minutes 30)) (timegm (clock w2)));
    split; intros; first [reflexivity | lia].
Qed.

Lemma login_then_resolve_witness :
  (login_for_access_token {| form_username := "alice"; form_password := "wonderland" |}
     (sample_world 0)
   = (Ok (RedirectResponse "/songs" HTTP_303_SEE_OTHER
            [{| key := "access_token"; value := issued_token "alice" 0;
                httponly := true; secure := true |}]), sample_world 0)
   ∧ db (sample_world 1800999999) = db (sample_world 0))
  ∧ ∃ user,
      get_current_user (request_with (issued_token "alice" 0)) (sample_world 1800999999)
      = (Ok user, sample_world 1800999999).
Proof.
  split; [split; reflexivity |].
  destruct (login_then_resolve
              {| form_username := "alice"; form_password := "wonderland" |}
              (sample_world 0) (sample_world 0) (sample_world 1800999999)
              "/songs" HTTP_303_SEE_OTHER
              {| key := "access_token"; value := issued_token "alice" 0;
                 httponly := true; secure := true |} eq_refl eq_refl)
    as (user & _ & Hok & _).
  exists user. apply Hok. vm_compute. intros Hgt. discriminate Hgt.
Defined.

(** X6. Login does not look at the disabled flag: a disabled user with the
    right password is given a token, and that token, presented on the same
    store at the time of issue, is refused by the resolver chain with the
    400 "Inactive user" exception. *)
Theorem disabled_user_logs_in_but_is_refused (form_data : OAuth2PasswordRequestForm)
    (w : world) (user : UserModel.t) (salt : string) :
  get_user_by_username (db w) (form_username form_data) = Some user →
  UserModel.hashed_password user = Bcrypt salt (form_password form_data) →
  UserModel.disabled user = true →
  login_for_access_token form_data w
  = (Ok (RedirectResponse "/songs" HTTP_303_SEE_OTHER
           [{| key := "access_token";
               value := issued_token (form_username form_data) (clock w);
               httponly := true; secure := true |}]), w)
  ∧ current_active_user
      (request_with (issued_token (form_username form_data) (clock w))) w
    = (Raise (HTTPException 400 "Inactive user" []), w).
Proof.
  intros Hu Hh Hdis.
  apply get_user_by_username_name in Hu as Hname. destruct Hname as [Hname _].
  split.
  - rewrite <- Hname. apply login_run.
    unfold authenticate_user, verify_password, pwd_context_verify.
    rewrite Hu, Hh. by rewrite bool_decide_true.
  - unfold current_active_user. run.
    rewrite (get_current_user_issued w (clock w) _ user Hu eq_refl (clock w)).
    destruct (Z.ltb_spec
                (timegm (clock w + timedelta_minutes ACCESS_TOKEN_EXPIRE_MINUTES))
                (timegm (clock w))) as [Hlt | _].
    + exfalso. assert (timegm (clock w)
                       ≤ timegm (clock w + timedelta_minutes ACCESS_TOKEN_EXPIRE_MINUTES));
        [apply timegm_mono; unfold timedelta_minutes, ACCESS_TOKEN_EXPIRE_MINUTES; lia
        | lia].
    + unfold get_current_active_user. rewrite Hdis. reflexivity.
Qed.

Lemma disabled_user_logs_in_but_is_refused_witness :
  (get_user_by_username (db (sample_world 0)) "bob" = Some bob
   ∧ UserModel.hashed_password bob = Bcrypt "salt-b" "builder"
   ∧ UserModel.disabled bob = true)
  ∧ (login_for_access_token {| form_username := "bob"; form_password := "builder" |}
       (sample_world 0)
     = (Ok (RedirectResponse "/songs" HTTP_303_SEE_OTHER
              [{| key := "access_token"; value := issued_token "bob" 0;
                  httponly := true; secure := true |}]), sample_world 0)
     ∧ current_active_user (request_with (issued_token "bob" 0)) (sample_world 0)
       = (Raise (HTTPException 400 "Inactive user" []), sample_world 0)).
Proof.
  split; [repeat split |].
  apply (disabled_user_logs_in_but_is_refused
           {| form_username := "bob"; form_password := "builder" |}
           (sample_world 0) bob "salt-b"); reflexivity.
Defined.

(** ** Registration *)

Lemma register_Ok_inv request username password email full_name salt w response w' :
  register request username password email full_name salt w = (Ok response, w') →
  get_user_by_username (db w) username = None
  ∧ get_user_by_email (db w) email = None
  ∧ w' = {| db := {| users :=
                       users (db w)
                       ++ [{| UserModel.id := next_id (UserModel.id <$> users (db w));
                              UserModel.username := username;
                              UserModel.email := email;
                              UserModel.full_name := full_name;
                              UserModel.hashed_password := Bcrypt salt password;
                              UserModel.disabled := false |}];
                     songs := songs (db w) |};
            files := files w; clock := clock w |}.
Proof.
  unfold register. run.
  destruct (get_user_by_username (db w) username); [discriminate |].
  destruct (get_user_by_email (db w) email); [discriminate |].
  unfold create_user. run. by intros [= _ <-].
Qed.

Lemma get_user_by_username_new d d' row username :
  get_user_by_username d username = None →
  users d' = (users d ++ [row])%list →
  UserModel.username row = username →
  get_user_by_username d' username = Some row.
Proof.
  unfold get_user_by_username. intros Hnone -> <-.
  rewrite find_app_first, Hnone. cbn. by rewrite bool_decide_true.
Qed.

(** X7. After a successful registration, a login with the registered
    username and password succeeds on the resulting store at any later clock
    reading, and delivers the token issued for that username. *)
Theorem register_then_login (request : Request) (username password : string)
    (email full_name : option string) (salt : string) (w w1 w2 : world)
    (response : Response) :
  register request username password email full_name salt w = (Ok response, w1) →
  db w2 = db w1 →
  login_for_access_token {| form_username := username; form_password := password |} w2
  = (Ok (RedirectResponse "/songs" HTTP_303_SEE_OTHER
           [{| key := "access_token"; value := issued_token username (clock w2);
               httponly := true; secure := true |}]), w2).
Proof.
  intros Hreg Hdb. apply register_Ok_inv in Hreg as (Hfresh & _ & ->).
  eapply (get_user_by_username_new _ (db w2)) in Hfresh;
    [| by rewrite Hdb | reflexivity].
  match type of Hfresh with
  | _ = Some ?row =>
      rewrite (login_run {| form_username := username; form_password := password |}
                 w2 row); [reflexivity |]
  end.
  unfold authenticate_user, verify_password, pwd_context_verify.
  cbn [form_username form_password]. rewrite Hfresh. cbn.
  by rewrite bool_decide_true.
Qed.

Lemma register_then_login_witness :
  ∃ response w1,
    register request_without_cookie "dave" "hunter2" (Some "dave@example.org") None
      "salt-d" (sample_world 0) = (Ok response, w1)
    ∧ login_for_access_token {| form_username := "dave"; form_password := "hunter2" |} w1
      = (Ok (RedirectResponse "/songs" HTTP_303_SEE_OTHER
               [{| key := "access_token"; value := issued_token "dave" (clock w1);
                   httponly := true; secure := true |}]), w1).
Proof.
  destruct (register request_without_cookie "dave" "hunter2"
              (Some "dave@example.org") None "salt-d" (sample_world 0))
    as [[response | e] w1] eqn:Hreg; [| vm_compute in Hreg; discriminate Hreg].
  exists response, w1. split; [reflexivity |].
  exact (register_then_login request_without_cookie "dave" "hunter2"
           (Some "dave@example.org") None "salt-d" (sample_world 0) w1 w1
           response Hreg eq_refl).
Defined.



(** X9. Once a username has been registered, every further registration
    under that username, whatever its password, email or name, is refused on
    the resulting store with the duplicate-username conflict and changes
    nothing. *)
Theorem register_twice (request request' : Request) (username password password' : string)
    (email full_name email' full_name' : option string) (salt salt' : string)
    (w w1 w2 : world) (response : Response) :
  register request username password email full_name salt w = (Ok response, w1) →
  db w2 = db w1 →
  register request' username password' email' full_name' salt' w2
  = (Raise (HTTPException HTTP_400_BAD_REQUEST "Username already registered" []), w2).
Proof.
  intros Hreg Hdb. apply register_Ok_inv in Hreg as (Hfresh & _ & ->).
  eapply (get_user_by_username_new _ (db w2)) in Hfresh;
    [| by rewrite Hdb | reflexivity].
  unfold register. run. rewrite Hfresh. reflexivity.
Qed.

Lemma register_twice_witness :
  ∃ response w1,
    register request_without_cookie "dave" "hunter2" (Some "dave@example.org") None
      "salt-d" (sample_world 0) = (Ok response, w1)
    ∧ register request_without_cookie "dave" "other" (Some "d2@example.org") None
        "salt-e" w1
      = (Raise (HTTPException HTTP_400_BAD_REQUEST "Username already registered" []),
         w1).
Proof.
  destruct (register request_without_cookie "dave" "hunter2"
              (Some "dave@example.org") None "salt-d" (sample_world 0))
    as [[response | e] w1] eqn:Hreg; [| vm_compute in Hreg; discriminate Hreg].
  exists response, w1. split; [reflexivity |].
  exact (register_twice request_without_cookie request_without_cookie "dave"
           "hunter2" "other" (Some "dave@example.org") None (Some "d2@example.org")
           None "salt-d" "salt-e" (sample_world 0) w1 w1 response Hreg eq_refl).
Defined.

(** X10. Registration keeps the two uniqueness constraints of the users
    table: if the stored usernames are pairwise distinct and the stored
    non-null emails are pairwise distinct, they still are after any
    registration attempt, successful or not. *)
Theorem register_keeps_unique (request : Request) (username password : string)
    (email full_name : option string) (salt : string) (w w' : world)
    (r : result Response) :
  register request username password email full_name salt w = (r, w') →
  NoDup (UserModel.username <$> users (db w)) →
  NoDup (omap UserModel.email (users (db w))) →
  NoDup (UserModel.username <$> users (db w'))
  ∧ NoDup (omap UserModel.email (users (db w'))).
Proof.
  intros Hrun Hnames Hmails. destruct r as [response | e].
  - apply register_Ok_inv in Hrun as (Hfresh & Hmail & ->). cbn [db users].
    rewrite fmap_app, omap_app. split; apply NoDup_app.
    + split; [exact Hnames |]. split; [| apply NoDup_singleton].
      intros x Hx Hin. cbn in Hin. apply list_elem_of_singleton in Hin as ->.
      by apply get_user_by_username_None in Hfresh.
    + split; [exact Hmails |]. destruct email as [e |]; cbn.
      * split; [| apply NoDup_singleton].
        intros x Hx Hin. apply list_elem_of_singleton in Hin as ->.
        by apply get_user_by_email_None in Hmail.
      * split; [| apply NoDup_nil_2]. intros x _ Hin. by apply elem_of_nil in Hin.
  - apply register_raises in Hrun as ->. done.
Qed.

Lemma register_keeps_unique_witness :
  ∃ r w',
    (register request_without_cookie "dave" "hunter2" (Some "dave@example.org") None
       "salt-d" (sample_world 0) = (r, w')
     ∧ NoDup (UserModel.username <$> users (db (sample_world 0)))
     ∧ NoDup (omap UserModel.email (users (db (sample_world 0)))))
    ∧ NoDup (UserModel.username <$> users (db w'))
    ∧ NoDup (omap UserModel.email (users (db w'))).
Proof.
  destruct (register request_without_cookie "dave" "hunter2"
              (Some "dave@example.org") None "salt-d" (sample_world 0))
    as [r w'] eqn:Hreg.
  assert (Hnames : NoDup (UserModel.username <$> users (db (sample_world 0))))
    by (apply (bool_decide_unpack _); vm_compute; exact I).
  assert (Hmails : NoDup (omap UserModel.email (users (db (sample_world 0)))))
    by (apply (bool_decide_unpack _); vm_compute; exact I).
  exists r, w'. split; [split; [reflexivity | split; assumption] |].
  exact (register_keeps_unique request_without_cookie "dave" "hunter2"
           (Some "dave@example.org") None "salt-d" (sample_world 0) w' r
           Hreg Hnames Hmails).
Defined.

(** X11. A registration under a fresh username whose email, given or
    omitted, equals the email of a stored user is refused with the
    duplicate-email conflict and changes nothing. *)
Theorem register_email_conflict (request : Request) (username password : string)
    (email full_name : option string) (salt : string) (w : world)
    (u : UserModel.t) :
  get_user_by_username (db w) username = None →
  u ∈ users (db w) →
  UserModel.email u = email →
  register request username password email full_name salt w
  = (Raise (HTTPException HTTP_400_BAD_REQUEST "Email already registered" []), w).
Proof.
  intros Hfresh Hin Hmail. unfold register. run. rewrite Hfresh.
  destruct (get_user_by_email_is_Some (db w) email u Hin Hmail) as [v Hv].
  rewrite Hv. reflexivity.
Qed.

Lemma register_email_conflict_witness :
  (get_user_by_username (db (sample_world 0)) "dave" = None
   ∧ bob ∈ users (db (sample_world 0))
   ∧ UserModel.email bob = Some "bob@example.org")
  ∧ register request_without_cookie "dave" "hunter2" (Some "bob@example.org") None
      "salt-d" (sample_world 0)
    = (Raise (HTTPException HTTP_400_BAD_REQUEST "Email already registered" []),
       sample_world 0).
Proof.
  assert (Hin : bob ∈ users (db (sample_world 0))).
  { apply list_elem_of_In. right. left. reflexivity. }
  split; [split; [reflexivity | split; [exact Hin | reflexivity]] |].
  exact (register_email_conflict request_without_cookie "dave" "hunter2"
           (Some "bob@example.org") None "salt-d" (sample_world 0) bob
           eq_refl Hin eq_refl).
Defined.

(** ** Songs *)

Lemma next_id_fresh ids x : x ∈ ids → x < next_id ids.
Proof.
  unfold next_id. induction ids as [| y ids IH]; intros Hin.
  - by apply elem_of_nil in Hin.
  - cbn. apply elem_of_cons in Hin as [-> | Hin]; [lia |].
    specialize (IH Hin). lia.
Qed.

Lemma remove_new_song (l : list SongModel.t) (new : SongModel.t) :
  SongModel.id new = next_id (SongModel.id <$> l) →
  List.filter (λ s, negb (bool_decide (SongModel.id s = SongModel.id new)))
    (l ++ [new]) = l.
Proof.
  intros Hid. rewrite List.filter_app. cbn. rewrite bool_decide_true by reflexivity.
  cbn. rewrite app_nil_r.
  assert (Hall : ∀ s, s ∈ l → SongModel.id s ≠ SongModel.id new).
  { intros s Hs Heq.
    assert (SongModel.id s < next_id (SongModel.id <$> l)); [| lia].
    apply next_id_fresh, list_elem_of_fmap. by exists s. }
  clear Hid. induction l as [| s l IH]; cbn; [reflexivity |].
  rewrite bool_decide_false by (apply Hall; left). cbn.
  f_equal. apply IH. intros s' Hs'. apply Hall. by right.
Qed.

(** X12. [add_song] writes the upload under [static/], leaves the users
    table alone and appends one row owned by the current user: the song list
    of the current user grows by exactly that row at its end, and the song
    list of every user with another id is what it was. *)
Theorem add_song_lists (request : Request) (name artist filename : string)
    (current_user : UserModel.t) (w : world) :
  let new_song :=
    {| SongModel.id := next_id (SongModel.id <$> songs (db w));
       SongModel.name := name; SongModel.artist := artist;
       SongModel.file_path := "static/" +:+ filename;
       SongModel.owner_id := UserModel.id current_user |} in
  ∃ w',
    add_song request name artist filename current_user w
    = (Ok (TemplateResponse "song_added.html"
             (<["new_song" := CtxSong new_song]>
                {["request" := CtxRequest request]})), w')
    ∧ users (db w') = users (db w)
    ∧ "static/" +:+ filename ∈ files w'
    ∧ songs_of (db w') current_user
      = (songs_of (db w) current_user ++ [new_song])%list
    ∧ (∀ other, UserModel.id other ≠ UserModel.id current_user →
                songs_of (db w') other = songs_of (db w) other)
    ∧ ∃ page, (get_user_songs request current_user w').1 = Ok page
              ∧ page_context page !! "songs"
                = Some (PageSongs (songs_of (db w) current_user ++ [new_song])).
Proof.
  intros new_song. eexists. split; [unfold add_song; run_io; reflexivity |].
  cbn [db users files songs].
  assert (Hmine : songs_of
                    {| users := users (db w); songs := songs (db w) ++ [new_song] |}
                    current_user
                  = (songs_of (db w) current_user ++ [new_song])%list).
  { unfold songs_of. cbn [songs]. rewrite List.filter_app. cbn.
    by rewrite bool_decide_true. }
  split; [reflexivity |]. split; [set_solver |]. split; [exact Hmine |]. split.
  - intros other Hother. unfold songs_of. cbn [songs]. rewrite List.filter_app. cbn.
    rewrite bool_decide_false by congruence. apply app_nil_r.
  - eexists. split; [unfold get_user_songs; run; reflexivity |].
    cbn [page_context db]. rewrite lookup_insert_ne by done.
    rewrite lookup_insert_eq. do 2 f_equal. exact Hmine.
Qed.

(** X13. Adding a song under a name and artist that no stored song has, and
    then deleting by that name and artist (by any user), gives back the
    database as it was; the uploaded file is gone afterwards, also when a
    file of that name was there before the upload. *)
Theorem add_then_delete (request request' : Request) (name artist filename : string)
    (user user' : UserModel.t) (w : world) :
  List.find (λ s, bool_decide (SongModel.name s = name)
                  && bool_decide (SongModel.artist s = artist)) (songs (db w))
  = None →
  ∃ r1 w1 w2,
    add_song request name artist filename user w = (Ok r1, w1)
    ∧ delete_song request' name artist user' w1
      = (Ok (TemplateResponse "song_deleted.html"
               {["request" := CtxRequest request']}), w2)
    ∧ db w2 = db w
    ∧ files w2 = files w ∖ {["static/" +:+ filename]}
    ∧ "static/" +:+ filename ∉ files w2.
Proof.
  intros Hnone. eexists _, _, _.
  split; [unfold add_song; run_io; reflexivity |].
  split.
  - unfold delete_song, first_song. run. cbn [db songs files clock].
    rewrite find_app_first, Hnone. cbn.
    rewrite !bool_decide_true by reflexivity. cbn.
    rewrite bool_decide_true by set_solver. reflexivity.
  - cbn [db files]. split; [| split].
    2: { apply set_eq. intros x.
         rewrite !elem_of_difference, elem_of_union, elem_of_singleton. tauto. }
    2: { rewrite elem_of_difference, elem_of_singleton. tauto. }
    unfold remove_song. cbn [users songs].
    rewrite remove_new_song by reflexivity. by destruct (db w).
Qed.

Lemma add_then_delete_witness :
  List.find (λ s, bool_decide (SongModel.name s = "So What")
                  && bool_decide (SongModel.artist s = "Miles Davis"))
    (songs (db (sample_world 0))) = None
  ∧ ∃ r1 w1 w2,
      add_song request_without_cookie "So What" "Miles Davis" "blue.mp3" carol
        (sample_world 0) = (Ok r1, w1)
      ∧ delete_song request_without_cookie "So What" "Miles Davis" alice w1
        = (Ok (TemplateResponse "song_deleted.html"
                 {["request" := CtxRequest request_without_cookie]}), w2)
      ∧ db w2 = db (sample_world 0)
      ∧ files w2 = files (sample_world 0) ∖ {["static/" +:+ "blue.mp3"]}
      ∧ "static/" +:+ "blue.mp3" ∉ files w2.
Proof.
  split; [reflexivity |].
  exact (add_then_delete request_without_cookie request_without_cookie "So What"
           "Miles Davis" "blue.mp3" carol alice (sample_world 0) eq_refl).
Defined.

Lemma str_truthy_nonempty s : s ≠ "" → str_truthy s = true.
Proof. by destruct s. Qed.

Lemma first_song_Some_in d name artist song :
  first_song d name artist = Some song →
  song ∈ songs d ∧ SongModel.name song = name ∧ SongModel.artist song = artist.
Proof.
  unfold first_song. intros Hfind. apply find_some in Hfind as [Hin Hp].
  apply andb_prop in Hp as [Hn Ha].
  apply bool_decide_eq_true in Hn. apply bool_decide_eq_true in Ha.
  split; [by apply list_elem_of_In | done].
Qed.

Lemma first_song_is_Some d name artist s :
  s ∈ songs d → SongModel.name s = name → SongModel.artist s = artist →
  is_Some (first_song d name artist).
Proof.
  intros Hin Hn Ha. unfold first_song.
  destruct (List.find _ (songs d)) eqn:Hfind; [by eexists |].
  apply list_elem_of_In in Hin.
  pose proof (find_none _ _ Hfind s Hin) as Hfalse. cbn in Hfalse.
  rewrite !bool_decide_true in Hfalse by done. discriminate.
Qed.

(** X14. Editing with a non-empty name and artist that select a stored song
    replaces that song by a row with the new name and the new artist (empty
    ones included) and the old id, file path and owner: the row is in the
    table afterwards, a lookup under the new name and artist finds a song,
    and the number of songs, the users and the files are unchanged. *)
Theorem edit_then_lookup (request : Request) (name artist new_name new_artist : string)
    (current_user : UserModel.t) (w : world) (song : SongModel.t) :
  List.find (λ s, bool_decide (SongModel.name s = name)
                  && bool_decide (SongModel.artist s = artist)) (songs (db w))
  = Some song →
  name ≠ "" →
  artist ≠ "" →
  let edited :=
    {| SongModel.id := SongModel.id song; SongModel.name := new_name;
       SongModel.artist := new_artist;
       SongModel.file_path := SongModel.file_path song;
       SongModel.owner_id := SongModel.owner_id song |} in
  ∃ w',
    edit_song request name artist new_name new_artist current_user w
    = (Ok (TemplateResponse "song_edited.html"
             (<["song" := CtxSong edited]> {["request" := CtxRequest request]})), w')
    ∧ edited ∈ songs (db w')
    ∧ is_Some (first_song (db w') new_name new_artist)
    ∧ length (songs (db w')) = length (songs (db w))
    ∧ users (db w') = users (db w)
    ∧ files w' = files w.
Proof.
  intros Hfind Hname Hartist edited.
  pose proof (first_song_Some_in (db w) name artist song Hfind) as (Hin & _ & _).
  eexists. split.
  { unfold edit_song, first_song. run. rewrite Hfind.
    rewrite (str_truthy_nonempty _ Hname), (str_truthy_nonempty _ Hartist).
    reflexivity. }
  cbn [db files users songs update_song].
  assert (Hed : edited ∈ songs (update_song edited (db w))).
  { unfold update_song. cbn [songs]. apply list_elem_of_fmap. exists song.
    split; [| exact Hin]. by rewrite bool_decide_true. }
  split; [exact Hed |]. split; [| split; [| done]].
  - by apply (first_song_is_Some _ _ _ edited Hed).
  - unfold update_song. cbn [songs]. apply length_fmap.
Qed.

Lemma edit_then_lookup_witness :
  (List.find (λ s, bool_decide (SongModel.name s = "Blue in Green")
                   && bool_decide (SongModel.artist s = "Miles Davis"))
     (songs (db (sample_world 0))) = Some alice_song
   ∧ "Blue in Green" ≠ "" ∧ "Miles Davis" ≠ "")
  ∧ ∃ w',
      edit_song request_without_cookie "Blue in Green" "Miles Davis" "" "Bill Evans"
        carol (sample_world 0)
      = (Ok (TemplateResponse "song_edited.html"
               (<["song" := CtxSong
                              {| SongModel.id := 1; SongModel.name := "";
                                 SongModel.artist := "Bill Evans";
                                 SongModel.file_path := "static/blue.mp3";
                                 SongModel.owner_id := 1 |}]>
                  {["request" := CtxRequest request_without_cookie]})), w')
      ∧ is_Some (first_song (db w') "" "Bill Evans").
Proof.
  split; [split; [reflexivity | split; discriminate] |].
  destruct (edit_then_lookup request_without_cookie "Blue in Green" "Miles Davis"
              "" "Bill Evans" carol (sample_world 0) alice_song eq_refl
              ltac:(discriminate) ltac:(discriminate))
    as (w' & Hrun & _ & Hfound & _).
  exists w'. split; [exact Hrun | exact Hfound].
Defined.

(** X15. When no stored song has the given name and artist, the edit and
    the delete handlers raise their 404 exceptions and leave the database
    and the files untouched. *)
Theorem song_not_found (request : Request) (name artist new_name new_artist : string)
    (current_user : UserModel.t) (w : world) :
  (∀ s, s ∈ songs (db w) →
        ¬ (SongModel.name s = name ∧ SongModel.artist s = artist)) →
  edit_song request name artist new_name new_artist current_user w
  = (Raise (HTTPException HTTP_404_NOT_FOUND
              "Song not found or you do not have permission to edit it" []), w)
  ∧ delete_song request name artist current_user w
    = (Raise (HTTPException HTTP_404_NOT_FOUND
                "Song not found or you dont have permission to delete it" []), w).
Proof.
  intros Hnone.
  assert (Hfind : first_song (db w) name artist = None).
  { destruct (first_song (db w) name artist) as [s |] eqn:Hs; [| reflexivity].
    apply first_song_Some_in in Hs as (Hin & Hn & Ha). by destruct (Hnone s Hin). }
  split.
  - unfold edit_song. run. rewrite Hfind. reflexivity.
  - unfold delete_song. run. rewrite Hfind. reflexivity.
Qed.

Lemma song_not_found_witness :
  (∀ s, s ∈ songs (db (sample_world 0)) →
        ¬ (SongModel.name s = "So What" ∧ SongModel.artist s = "Miles Davis"))
  ∧ delete_song request_without_cookie "So What" "Miles Davis" alice (sample_world 0)
    = (Raise (HTTPException HTTP_404_NOT_FOUND
                "Song not found or you dont have permission to delete it" []),
       sample_world 0).
Proof.
  assert (Hnone : ∀ s, s ∈ songs (db (sample_world 0)) →
                       ¬ (SongModel.name s = "So What"
                          ∧ SongModel.artist s = "Miles Davis")).
  { intros s Hin [Hn _]. apply list_elem_of_singleton in Hin. subst s.
    discriminate Hn. }
  split; [exact Hnone |].
  exact (proj2 (song_not_found request_without_cookie "So What" "Miles Davis" "" ""
                  alice (sample_world 0) Hnone)).
Defined.

Lemma current_active_user_unchanged request w r w' :
  current_active_user request w = (r, w') → w' = w.
Proof.
  unfold current_active_user. run.
  destruct (get_current_user request w) as [[user | e] w1] eqn:Hrun.
  - apply get_current_user_Ok_inv in Hrun as [-> _].
    unfold get_current_active_user.
    destruct (UserModel.disabled user); run; by intros [= _ <-].
  - apply get_current_user_raises in Hrun as [_ ->]. by intros [= _ <-].
Qed.

(** X16. When the resolver chain refuses a request, the song list, upload,
    edit and delete routes raise the resolver's exception and change neither
    the database nor the files. *)
Theorem routes_refuse_unresolved (request : Request) (w w0 : world) (e : exn)
    (name artist new_name new_artist filename : string) :
  current_active_user request w = (Raise e, w0) →
  route_get_user_songs request w = (Raise e, w)
  ∧ route_add_song request name artist filename w = (Raise e, w)
  ∧ route_edit_song request name artist new_name new_artist w = (Raise e, w)
  ∧ route_delete_song request name artist w = (Raise e, w).
Proof.
  intros Hrun.
  apply current_active_user_unchanged in Hrun as Hw. subst w0.
  unfold route_get_user_songs, route_add_song, route_edit_song, route_delete_song.
  run. rewrite Hrun. done.
Qed.

Lemma routes_refuse_unresolved_witness :
  current_active_user request_without_cookie (sample_world 0)
  = (Raise credentials_exception, sample_world 0)
  ∧ route_add_song request_without_cookie "So What" "Miles Davis" "so.mp3"
      (sample_world 0)
    = (Raise credentials_exception, sample_world 0)
  ∧ route_delete_song request_without_cookie "Blue in Green" "Miles Davis"
      (sample_world 0)
    = (Raise credentials_exception, sample_world 0).
Proof.
  split; [reflexivity |].
  destruct (routes_refuse_unresolved request_without_cookie (sample_world 0)
              (sample_world 0) credentials_exception "So What" "Miles Davis"
              "" "" "so.mp3" eq_refl) as (_ & Hadd & _ & _).
  split; [exact Hadd |].
  exact (proj2 (proj2 (proj2
           (routes_refuse_unresolved request_without_cookie (sample_world 0)
              (sample_world 0) credentials_exception "Blue in Green" "Miles Davis"
              "" "" "" eq_refl)))).
Defined.

Lemma NoDup_fmap_eq {A B : Type} (f : A → B) (l : list A) (x y : A) :
  NoDup (f <$> l) → x ∈ l → y ∈ l → f x = f y → x = y.
Proof.
  induction l as [| z l IH]; intros Hnd Hx Hy Hf.
  - by apply elem_of_nil in Hx.
  - cbn in Hnd. apply NoDup_cons in Hnd as [Hz Hnd].
    apply elem_of_cons in Hx as [-> | Hx]; apply elem_of_cons in Hy as [-> | Hy].
    + reflexivity.
    + exfalso. apply Hz. rewrite Hf. apply list_elem_of_fmap. by exists y.
    + exfalso. apply Hz. rewrite <- Hf. apply list_elem_of_fmap. by exists x.
    + by apply IH.
Qed.

(** X17. On a songs table whose ids are pairwise distinct, an edit never
    moves a song between users: after the edit every user's song list holds
    the rows with the same ids, in the same order, as before, and the ids of
    the table are unchanged. *)
Theorem edit_keeps_owners (request : Request) (name artist new_name new_artist : string)
    (current_user : UserModel.t) (w w' : world) (response : Response) :
  NoDup (SongModel.id <$> songs (db w)) →
  edit_song request name artist new_name new_artist current_user w
  = (Ok response, w') →
  (SongModel.id <$> songs (db w')) = (SongModel.id <$> songs (db w))
  ∧ ∀ u, (SongModel.id <$> songs_of (db w') u) = (SongModel.id <$> songs_of (db w) u).
Proof.
  intros Hnd. unfold edit_song. run.
  destruct (first_song (db w) name artist) as [song |] eqn:Hfind; [| discriminate].
  apply first_song_Some_in in Hfind as (Hin & _ & _).
  set (edited := if str_truthy artist then _ else _).
  intros [= _ <-]. cbn [db].
  assert (Hid : SongModel.id edited = SongModel.id song)
    by (unfold edited; destruct (str_truthy artist), (str_truthy name); reflexivity).
  assert (Hown : SongModel.owner_id edited = SongModel.owner_id song)
    by (unfold edited; destruct (str_truthy artist), (str_truthy name); reflexivity).
  assert (Hsame : ∀ s, s ∈ songs (db w) →
                       SongModel.id s = SongModel.id edited → s = song).
  { intros s Hs Heq. apply (NoDup_fmap_eq SongModel.id (songs (db w))); try done.
    congruence. }
  unfold update_song, songs_of. cbn [songs].
  clear Hnd Hin. induction (songs (db w)) as [| s l IH]; [done |].
  assert (Hl : ∀ s0, s0 ∈ l → SongModel.id s0 = SongModel.id edited → s0 = song)
    by (intros s0 Hs0; apply Hsame; by right).
  destruct (IH Hl) as [IHids IHown]. cbn [fmap list_fmap].
  case_bool_decide as Hs.
  - assert (s = song) by (apply Hsame; [left | done]). subst s. split.
    + cbn. f_equal; [done | exact IHids].
    + intros u. cbn. rewrite Hown. specialize (IHown u).
      destruct (bool_decide (SongModel.owner_id song = UserModel.id u)); cbn;
        [f_equal; [done | exact IHown] | exact IHown].
  - split.
    + cbn. f_equal. exact IHids.
    + intros u. cbn. specialize (IHown u).
      destruct (bool_decide (SongModel.owner_id s = UserModel.id u)); cbn;
        [f_equal; exact IHown | exact IHown].
Qed.

Lemma edit_keeps_owners_witness :
  ∃ response w',
    (NoDup (SongModel.id <$> songs (db (sample_world 0)))
     ∧ edit_song request_without_cookie "Blue in Green" "Miles Davis" "So What"
         "Carol" carol (sample_world 0) = (Ok response, w'))
    ∧ (SongModel.id <$> songs_of (db w') alice) = [1]
    ∧ (SongModel.id <$> songs_of (db w') carol) = [].
Proof.
  destruct (edit_song request_without_cookie "Blue in Green" "Miles Davis" "So What"
              "Carol" carol (sample_world 0))
    as [[response | e] w'] eqn:Hrun; [| vm_compute in Hrun; discriminate Hrun].
  assert (Hnd : NoDup (SongModel.id <$> songs (db (sample_world 0))))
    by (apply (bool_decide_unpack _); vm_compute; exact I).
  exists response, w'. split; [split; [exact Hnd | reflexivity] |].
  destruct (edit_keeps_owners request_without_cookie "Blue in Green" "Miles Davis"
              "So What" "Carol" carol (sample_world 0) w' response Hnd Hrun)
    as [_ Hown].
  split; [rewrite (Hown alice) | rewrite (Hown carol)]; reflexivity.
Defined.

(** X18. Deleting a song removes its file even when another stored song
    points at the same path (two uploads under one file name share it): the
    other row stays in the table, and its file path no longer exists. *)
Theorem delete_leaves_dangling_path (request : Request) (name artist : string)
    (current_user : UserModel.t) (w : world) (song other : SongModel.t) :
  List.find (λ s, bool_decide (SongModel.name s = name)
                  && bool_decide (SongModel.artist s = artist)) (songs (db w))
  = Some song →
  other ∈ songs (db w) →
  SongModel.id other ≠ SongModel.id song →
  SongModel.file_path other = SongModel.file_path song →
  ∃ w',
    delete_song request name artist current_user w
    = (Ok (TemplateResponse "song_deleted.html"
             {["request" := CtxRequest request]}), w')
    ∧ other ∈ songs (db w')
    ∧ (song ∉ songs (db w'))
    ∧ SongModel.file_path other ∉ files w'.
Proof.
  intros Hfind Hin Hid Hpath. unfold delete_song, first_song. run. rewrite Hfind.
  assert (Hkept : other ∈ songs (remove_song song (db w))).
  { unfold remove_song. cbn [songs]. apply list_elem_of_In. apply filter_In.
    split; [by apply list_elem_of_In |]. by rewrite bool_decide_false. }
  assert (Hgone : song ∉ songs (remove_song song (db w))).
  { unfold remove_song. cbn [songs]. intros Hs.
    apply list_elem_of_In in Hs. apply filter_In in Hs as [_ Hs].
    by rewrite bool_decide_true in Hs. }
  case_bool_decide as Hfile; cbn; eexists; (split; [reflexivity |]);
    cbn [db files]; (split; [exact Hkept |]); (split; [exact Hgone |]);
    rewrite Hpath.
  - rewrite elem_of_difference, elem_of_singleton. tauto.
  - exact Hfile.
Qed.

Lemma delete_leaves_dangling_path_witness :
  let w1 := (add_song request_without_cookie "So What" "Carol" "blue.mp3" carol
               (sample_world 0)).2 in
  let new_song :=
    {| SongModel.id := 2; SongModel.name := "So What"; SongModel.artist := "Carol";
       SongModel.file_path := "static/blue.mp3"; SongModel.owner_id := 3 |} in
  (List.find (λ s, bool_decide (SongModel.name s = "Blue in Green")
                   && bool_decide (SongModel.artist s = "Miles Davis"))
     (songs (db w1)) = Some alice_song
   ∧ new_song ∈ songs (db w1)
   ∧ SongModel.id new_song ≠ SongModel.id alice_song
   ∧ SongModel.file_path new_song = SongModel.file_path alice_song)
  ∧ ∃ w2,
      delete_song request_without_cookie "Blue in Green" "Miles Davis" alice w1
      = (Ok (TemplateResponse "song_deleted.html"
               {["request" := CtxRequest request_without_cookie]}), w2)
      ∧ new_song ∈ songs (db w2)
      ∧ SongModel.file_path new_song ∉ files w2.
Proof.
  intros w1 new_song.
  assert (Hfind : List.find (λ s, bool_decide (SongModel.name s = "Blue in Green")
                                  && bool_decide (SongModel.artist s = "Miles Davis"))
                    (songs (db w1)) = Some alice_song) by reflexivity.
  assert (Hin : new_song ∈ songs (db w1))
    by (apply list_elem_of_In; right; left; reflexivity).
  assert (Hid : SongModel.id new_song ≠ SongModel.id alice_song) by discriminate.
  assert (Hpath : SongModel.file_path new_song = SongModel.file_path alice_song)
    by reflexivity.
  split; [repeat split; assumption |].
  destruct (delete_leaves_dangling_path request_without_cookie "Blue in Green"
              "Miles Davis" alice w1 alice_song new_song Hfind Hin Hid Hpath)
    as (w2 & Hdel & Hkept & _ & Hgone).
  exists w2. split; [exact Hdel | split; [exact Hkept | exact Hgone]].
Defined.
